(** * pyswmm/nodes.py: the node facade over the SWMM engine

    A shallow embedding of [pyswmm/nodes.py] (classes [Nodes], [Node],
    [Opening], [Outfall], [Storage]).  Every method of the facade is a
    computation in a small state-and-exception monad over a [World] that
    holds the engine objects, the store of [Nodes] instances, the class
    attribute [Opening.newid], the warnings raised so far and a log of the
    calls made on the engine.

    The engine itself ([pyswmm.swmm5.PySWMM]) and the enumerations of
    [pyswmm.toolkitapi] are imported by [nodes.py] and are not part of it;
    they are modelled in [Module Engine] from the interface description. *)

From Stdlib Require Import String List Bool Arith Lia PrimFloat Permutation.
Import ListNotations.
Open Scope string_scope.
Open Scope list_scope.
Open Scope nat_scope.

(** ** Enumerations of [pyswmm.toolkitapi] *)

(** Modelled from the spec: [toolkitapi.ObjectType], the object-type
    namespaces of the engine; [nodes.py] only ever passes [NODE]. *)
Module ObjectType.
Inductive t := SUBCATCH | NODE | LINK.
End ObjectType.

(** Modelled from the spec: [toolkitapi.NodeType], the closed enumeration of
    node kinds (ordinary, terminal, storage-capacity, diversion). *)
Module NodeType.
Inductive t := junction | outfall | storage | divider.

Definition eqb (a b : t) : bool :=
  match a, b with
  | junction, junction | outfall, outfall
  | storage, storage | divider, divider => true
  | _, _ => false
  end.

Lemma eqb_eq a b : eqb a b = true <-> a = b.
Proof. destruct a, b; simpl; split; congruence. Qed.
End NodeType.

(** Modelled from the spec: [toolkitapi.NodeParams], one code per parameter
    that [Node] reads and writes. *)
Module NodeParams.
Inductive t :=
  invertElev | fullDepth | surDepth | pondedArea | initDepth
| surfaceArea | couplingArea | overlandDepth.

Definition eqb (a b : t) : bool :=
  match a, b with
  | invertElev, invertElev | fullDepth, fullDepth | surDepth, surDepth
  | pondedArea, pondedArea | initDepth, initDepth
  | surfaceArea, surfaceArea | couplingArea, couplingArea
  | overlandDepth, overlandDepth => true
  | _, _ => false
  end.

Lemma eqb_refl c : eqb c c = true.
Proof. destruct c; reflexivity. Qed.
End NodeParams.

(** Modelled from the spec: [toolkitapi.NodeResults], one code per result
    that [Node] reads. *)
Module NodeResults.
Inductive t :=
  totalinflow | outflow | losses | newVolume | overflow
| newDepth | newHead | newLatFlow | overlandInflow.
End NodeResults.

(** ** Objects of the facade *)

(** An engine object is referred to by identity. *)
Definition handle := nat.

(** A [Nodes] instance lives in a store and is referred to by address: it is
    mutated by [__next__] and returned as its own iterator. *)
Definition ref := nat.

(** The [model] argument of [Nodes(model)]: a Simulation, of which the
    facade only reads the attribute [_model]. *)
Record Simulation := { Simulation__model : handle }.

(** The instance attributes of [Nodes]; a field is named after its class
    and its attribute ([Nodes__cuindex] is [Nodes._cuindex]). *)
Record NodesObj := {
  Nodes__model : handle;
  Nodes__cuindex : nat;
  Nodes__nNodes : nat
}.

(** The classes a node view can have: [_nd.__class__] is reassigned by
    [Nodes.__getitem__]. *)
Inductive NodeClass := Node_class | Outfall_class | Storage_class.

(** The instance attributes of a node view, and its class. *)
Record NodeObj := {
  Node__model : handle;
  Node__nodeid : string;
  Node__class__ : NodeClass
}.

(** The instance attributes of [Opening]. *)
Record OpeningObj := {
  Opening_nodeid : string;
  Opening__model : handle;
  Opening__id : nat
}.

(** ** The engine *)

(** Modelled from the spec: a sub-resource as the engine registers it, keyed
    by the owning node identifier and the sequence number. *)
Record OpeningRec := {
  op_node : string;
  op_seq : nat;
  op_type : nat;
  op_area : float;
  op_length : float;
  op_coeff_orifice : float;
  op_coeff_freeweir : float;
  op_coeff_subweir : float
}.

(** Modelled from the spec: the state of one engine object (the class
    [pyswmm.swmm5.PySWMM] is not part of [nodes.py]).  It holds the loaded
    flag, the identifier table of every object type in index order, the
    kind, parameters and results of every node, whether a run is active,
    and the registered sub-resources.

    The interface gives [identifier_exists] and [identifier_list] as two
    queries and does not say that they agree, nor what [identifier_at]
    answers outside the table; the state carries both answers.
    [found_also t id] tells whether the existence query finds an [id] that
    is not in the table of [t] (another spelling of an identifier, say in
    another letter case).  [beyond t i] is the answer of [identifier_at] at
    an index [i] outside the table of [t]: [None] when the engine raises,
    [Some s] when it returns [s] and signals a warning. *)
Record EngineState := {
  loaded : bool;
  identifiers : ObjectType.t -> list string;
  found_also : ObjectType.t -> string -> bool;
  beyond : ObjectType.t -> nat -> option string;
  kind : string -> NodeType.t;
  params : string -> NodeParams.t -> float;
  results : string -> NodeResults.t -> float;
  running : bool;
  registered : list OpeningRec
}.

(** A call made on an engine object, with its arguments. *)
Inductive Call :=
| Call_fileLoaded (h : handle)
| Call_getProjectSize (h : handle) (t : ObjectType.t)
| Call_ObjectIDexist (h : handle) (t : ObjectType.t) (id : string)
| Call_getObjectId (h : handle) (t : ObjectType.t) (i : nat)
| Call_getObjectIDList (h : handle) (t : ObjectType.t)
| Call_getNodeType (h : handle) (id : string)
| Call_getNodeParam (h : handle) (id : string) (c : NodeParams.t)
| Call_setNodeParam (h : handle) (id : string) (c : NodeParams.t) (v : float)
| Call_getNodeResult (h : handle) (id : string) (c : NodeResults.t)
| Call_setNodeOpening (h : handle) (id : string) (seq : nat).

(** A non-fatal warning signal: of a result read while no run is active,
    or of an identifier asked for at an index outside the table. *)
Inductive Warning :=
| PYSWMMWarning (h : handle) (id : string) (c : NodeResults.t)
| IndexWarning (h : handle) (t : ObjectType.t) (i : nat).

(** ** The world and the monad *)

Record World := {
  engines : handle -> EngineState;
  nodes_store : ref -> NodesObj;
  next_ref : ref;
  Opening_newid : nat;      (* the class attribute [Opening.newid] *)
  warnings : list Warning;  (* most recent first *)
  calls : list Call         (* most recent first *)
}.

Inductive exn :=
| PYSWMMException (msg : string)
| StopIteration.

Inductive outcome (A : Type) :=
| Return (a : A)
| Raise (e : exn).
Arguments Return {A} a.
Arguments Raise {A} e.

Definition M (A : Type) := World -> outcome A * World.

Definition ret {A} (a : A) : M A := fun w => (Return a, w).

Definition raise {A} (e : exn) : M A := fun w => (Raise e, w).

Definition bind {A B} (m : M A) (k : A -> M B) : M B :=
  fun w => match m w with
           | (Return a, w') => k a w'
           | (Raise e, w') => (Raise e, w')
           end.

Definition run {A} (m : M A) (w : World) : outcome A * World := m w.

Declare Scope py_scope.
Delimit Scope py_scope with py.
Notation "x <- m ;; k" := (bind m (fun x => k))
  (at level 61, m at next level, right associativity) : py_scope.
Open Scope py_scope.

Definition log (c : Call) : M unit :=
  fun w => (Return tt,
            {| engines := engines w; nodes_store := nodes_store w;
               next_ref := next_ref w; Opening_newid := Opening_newid w;
               warnings := warnings w; calls := c :: calls w |}).

Definition warn (x : Warning) : M unit :=
  fun w => (Return tt,
            {| engines := engines w; nodes_store := nodes_store w;
               next_ref := next_ref w; Opening_newid := Opening_newid w;
               warnings := x :: warnings w; calls := calls w |}).

Definition engine (h : handle) : M EngineState :=
  fun w => (Return (engines w h), w).

Definition set_engine (h : handle) (e : EngineState) : M unit :=
  fun w => (Return tt,
            {| engines := fun h' => if Nat.eqb h' h then e else engines w h';
               nodes_store := nodes_store w;
               next_ref := next_ref w; Opening_newid := Opening_newid w;
               warnings := warnings w; calls := calls w |}).

Definition load (r : ref) : M NodesObj :=
  fun w => (Return (nodes_store w r), w).

Definition store (r : ref) (o : NodesObj) : M unit :=
  fun w => (Return tt,
            {| engines := engines w;
               nodes_store := fun r' => if Nat.eqb r' r then o
                                        else nodes_store w r';
               next_ref := next_ref w; Opening_newid := Opening_newid w;
               warnings := warnings w; calls := calls w |}).

Definition alloc (o : NodesObj) : M ref :=
  fun w => (Return (next_ref w),
            {| engines := engines w;
               nodes_store := fun r' => if Nat.eqb r' (next_ref w) then o
                                        else nodes_store w r';
               next_ref := S (next_ref w); Opening_newid := Opening_newid w;
               warnings := warnings w; calls := calls w |}).

(** Python's [x in l] on a list of strings. *)
Definition py_in (x : string) (l : list string) : bool :=
  existsb (String.eqb x) l.

Module Engine.

(** Modelled from the spec: [is_model_loaded() -> bool], read by the facade
    as the attribute [fileLoaded] of the engine object. *)
Definition fileLoaded (h : handle) : M bool :=
  _ <- log (Call_fileLoaded h) ;;
  e <- engine h ;;
  ret (loaded e).

(** Modelled from the spec: [object_count(object_type) -> int], the number
    of entities of that type currently defined in the engine. *)
Definition getProjectSize (h : handle) (t : ObjectType.t) : M nat :=
  _ <- log (Call_getProjectSize h t) ;;
  e <- engine h ;;
  ret (length (identifiers e t)).

(** Modelled from the spec: [identifier_at(object_type, index) -> string].
    The interface does not say what happens at an index outside
    [0..count-1]; there the engine does what its state says in [beyond]:
    it raises, or it returns a string and signals a warning. *)
Definition getObjectId (h : handle) (t : ObjectType.t) (i : nat) : M string :=
  _ <- log (Call_getObjectId h t i) ;;
  e <- engine h ;;
  match nth_error (identifiers e t) i with
  | Some id => ret id
  | None =>
      match beyond e t i with
      | Some s => _ <- warn (IndexWarning h t i) ;; ret s
      | None => raise (PYSWMMException "Object index out of range")
      end
  end.

(** What the existence query of an engine finds: every identifier of the
    table, and the other spellings its state says it finds. *)
Definition finds (e : EngineState) (t : ObjectType.t) (id : string) : bool :=
  py_in id (identifiers e t) || found_also e t id.

(** Modelled from the spec: [identifier_exists(object_type, id) -> bool],
    a look-up in the engine's identifier table, without side effects.  It
    is a query of its own: the facade does not compute it from
    [getObjectIDList]. *)
Definition ObjectIDexist (h : handle) (t : ObjectType.t) (id : string)
  : M bool :=
  _ <- log (Call_ObjectIDexist h t id) ;;
  e <- engine h ;;
  ret (finds e t id).

(** Modelled from the spec: [identifier_list(object_type) -> sequence of
    string], the identifier table in index order. *)
Definition getObjectIDList (h : handle) (t : ObjectType.t)
  : M (list string) :=
  _ <- log (Call_getObjectIDList h t) ;;
  e <- engine h ;;
  ret (identifiers e t).

(** Modelled from the spec: [entity_kind(id) -> enumerated kind]. *)
Definition getNodeType (h : handle) (id : string) : M NodeType.t :=
  _ <- log (Call_getNodeType h id) ;;
  e <- engine h ;;
  ret (kind e id).

(** Modelled from the spec: [get_parameter(id, param_code) -> float], the
    current value of the attribute, read live from engine state. *)
Definition getNodeParam (h : handle) (id : string) (c : NodeParams.t)
  : M float :=
  _ <- log (Call_getNodeParam h id c) ;;
  e <- engine h ;;
  ret (params e id c).

(** Modelled from the spec: [set_parameter(id, param_code, value)], which
    writes the value into engine state. *)
Definition setNodeParam (h : handle) (id : string) (c : NodeParams.t)
    (v : float) : M unit :=
  _ <- log (Call_setNodeParam h id c v) ;;
  e <- engine h ;;
  set_engine h
    {| loaded := loaded e; identifiers := identifiers e;
       found_also := found_also e; beyond := beyond e; kind := kind e;
       params := fun id' c' =>
                   if String.eqb id' id && NodeParams.eqb c' c then v
                   else params e id' c';
       results := results e; running := running e;
       registered := registered e |}.

(** Modelled from the spec: [get_result(id, result_code) -> float], which
    returns 0 and a warning if no run is active. *)
Definition getNodeResult (h : handle) (id : string) (c : NodeResults.t)
  : M float :=
  _ <- log (Call_getNodeResult h id c) ;;
  e <- engine h ;;
  if running e then ret (results e id c)
  else _ <- warn (PYSWMMWarning h id c) ;; ret 0%float.

(** Modelled from the spec: [create_sub_resource(id, seq, type, area,
    length, c1, c2, c3)], which registers the sub-resource inside the
    engine under the key [(id, seq)]. *)
Definition setNodeOpening (h : handle) (id : string) (seq : nat)
    (opening_type : nat) (opening_area opening_length
     coeff_orifice coeff_freeweir coeff_subweir : float) : M unit :=
  _ <- log (Call_setNodeOpening h id seq) ;;
  e <- engine h ;;
  set_engine h
    {| loaded := loaded e; identifiers := identifiers e;
       found_also := found_also e; beyond := beyond e; kind := kind e;
       params := params e; results := results e; running := running e;
       registered :=
         {| op_node := id; op_seq := seq; op_type := opening_type;
            op_area := opening_area; op_length := opening_length;
            op_coeff_orifice := coeff_orifice;
            op_coeff_freeweir := coeff_freeweir;
            op_coeff_subweir := coeff_subweir |} :: registered e |}.

End Engine.

(** ** class Node *)

Module Node.

Definition __init__ (model : handle) (nodeid : string) : M NodeObj :=
  fl <- Engine.fileLoaded model ;;
  if negb fl then raise (PYSWMMException "SWMM Model Not Open")
  else
    ids <- Engine.getObjectIDList model ObjectType.NODE ;;
    if negb (py_in nodeid ids) then raise (PYSWMMException "ID Not valid")
    else ret {| Node__model := model; Node__nodeid := nodeid;
                Node__class__ := Node_class |}.

(** The property [nodeid] returns the attribute [_nodeid]. *)
Definition nodeid (self : NodeObj) : string := Node__nodeid self.

(** The four kind tests compare the engine's answer with the enumeration
    value by [is]; on the small integers of [NodeType] that is equality. *)
Definition is_junction (self : NodeObj) : M bool :=
  t <- Engine.getNodeType (Node__model self) (Node__nodeid self) ;;
  ret (NodeType.eqb t NodeType.junction).

Definition is_outfall (self : NodeObj) : M bool :=
  t <- Engine.getNodeType (Node__model self) (Node__nodeid self) ;;
  ret (NodeType.eqb t NodeType.outfall).

Definition is_storage (self : NodeObj) : M bool :=
  t <- Engine.getNodeType (Node__model self) (Node__nodeid self) ;;
  ret (NodeType.eqb t NodeType.storage).

Definition is_divider (self : NodeObj) : M bool :=
  t <- Engine.getNodeType (Node__model self) (Node__nodeid self) ;;
  ret (NodeType.eqb t NodeType.divider).

(** Parameter properties: the getter, then the setter. *)
Definition invert_elevation (self : NodeObj) : M float :=
  Engine.getNodeParam (Node__model self) (Node__nodeid self)
    NodeParams.invertElev.
Definition invert_elevation_setter (self : NodeObj) (param : float)
  : M unit :=
  Engine.setNodeParam (Node__model self) (Node__nodeid self)
    NodeParams.invertElev param.

Definition full_depth (self : NodeObj) : M float :=
  Engine.getNodeParam (Node__model self) (Node__nodeid self)
    NodeParams.fullDepth.
Definition full_depth_setter (self : NodeObj) (param : float)
  : M unit :=
  Engine.setNodeParam (Node__model self) (Node__nodeid self)
    NodeParams.fullDepth param.

Definition surcharge_depth (self : NodeObj) : M float :=
  Engine.getNodeParam (Node__model self) (Node__nodeid self)
    NodeParams.surDepth.
Definition surcharge_depth_setter (self : NodeObj) (param : float)
  : M unit :=
  Engine.setNodeParam (Node__model self) (Node__nodeid self)
    NodeParams.surDepth param.

Definition ponding_area (self : NodeObj) : M float :=
  Engine.getNodeParam (Node__model self) (Node__nodeid self)
    NodeParams.pondedArea.
Definition ponding_area_setter (self : NodeObj) (param : float)
  : M unit :=
  Engine.setNodeParam (Node__model self) (Node__nodeid self)
    NodeParams.pondedArea param.

Definition surface_area (self : NodeObj) : M float :=
  Engine.getNodeParam (Node__model self) (Node__nodeid self)
    NodeParams.surfaceArea.
Definition surface_area_setter (self : NodeObj) (param : float)
  : M unit :=
  Engine.setNodeParam (Node__model self) (Node__nodeid self)
    NodeParams.surfaceArea param.

Definition initial_depth (self : NodeObj) : M float :=
  Engine.getNodeParam (Node__model self) (Node__nodeid self)
    NodeParams.initDepth.
Definition initial_depth_setter (self : NodeObj) (param : float)
  : M unit :=
  Engine.setNodeParam (Node__model self) (Node__nodeid self)
    NodeParams.initDepth param.

(** Result properties. *)
Definition total_inflow (self : NodeObj) : M float :=
  Engine.getNodeResult (Node__model self) (Node__nodeid self)
    NodeResults.totalinflow.

Definition total_outflow (self : NodeObj) : M float :=
  Engine.getNodeResult (Node__model self) (Node__nodeid self)
    NodeResults.outflow.

Definition losses (self : NodeObj) : M float :=
  Engine.getNodeResult (Node__model self) (Node__nodeid self)
    NodeResults.losses.

Definition volume (self : NodeObj) : M float :=
  Engine.getNodeResult (Node__model self) (Node__nodeid self)
    NodeResults.newVolume.

Definition flooding (self : NodeObj) : M float :=
  Engine.getNodeResult (Node__model self) (Node__nodeid self)
    NodeResults.overflow.

Definition depth (self : NodeObj) : M float :=
  Engine.getNodeResult (Node__model self) (Node__nodeid self)
    NodeResults.newDepth.

Definition head (self : NodeObj) : M float :=
  Engine.getNodeResult (Node__model self) (Node__nodeid self)
    NodeResults.newHead.

Definition lateral_inflow (self : NodeObj) : M float :=
  Engine.getNodeResult (Node__model self) (Node__nodeid self)
    NodeResults.newLatFlow.

(** The overland coupling accessors go through the property [nodeid]. *)
Definition coupling_inflow (self : NodeObj) : M float :=
  Engine.getNodeResult (Node__model self) (nodeid self)
    NodeResults.overlandInflow.

Definition coupling_area (self : NodeObj) : M float :=
  Engine.getNodeParam (Node__model self) (nodeid self)
    NodeParams.couplingArea.
Definition coupling_area_setter (self : NodeObj) (param : float)
  : M unit :=
  Engine.setNodeParam (Node__model self) (nodeid self)
    NodeParams.couplingArea param.

Definition overland_depth (self : NodeObj) : M float :=
  Engine.getNodeParam (Node__model self) (nodeid self)
    NodeParams.overlandDepth.
Definition overland_depth_setter (self : NodeObj) (param : float)
  : M unit :=
  Engine.setNodeParam (Node__model self) (nodeid self)
    NodeParams.overlandDepth param.

End Node.

(** ** class Opening *)

Module Opening.

(** [next(self.__class__.newid)] on the class attribute
    [newid = itertools.count()]: returns the counter and advances it. *)
Definition next_newid : M nat :=
  fun w => (Return (Opening_newid w),
            {| engines := engines w; nodes_store := nodes_store w;
               next_ref := next_ref w;
               Opening_newid := S (Opening_newid w);
               warnings := warnings w; calls := calls w |}).

Definition __init__ (node_object : NodeObj) (opening_type : nat)
    (opening_area opening_length
     coeff_orifice coeff_freeweir coeff_subweir : float) : M OpeningObj :=
  let nodeid := Node.nodeid node_object in
  let _model := Node__model node_object in
  _id <- next_newid ;;
  _ <- Engine.setNodeOpening _model nodeid _id
         opening_type opening_area opening_length
         coeff_orifice coeff_freeweir coeff_subweir ;;
  ret {| Opening_nodeid := nodeid; Opening__model := _model;
         Opening__id := _id |}.

End Opening.

(** [Node.create_opening], stated after the class it instantiates. *)
Definition Node_create_opening (self : NodeObj) (opening_type : nat)
    (opening_area opening_length
     coeff_orifice coeff_freeweir coeff_subweir : float) : M OpeningObj :=
  opening_object <- Opening.__init__ self opening_type opening_area
                      opening_length coeff_orifice coeff_freeweir
                      coeff_subweir ;;
  ret opening_object.

(** ** The classes [Node], [Outfall(Node)] and [Storage(Node)] as attribute
    tables *)

(** The names each class body defines, in source order. *)
Definition class_dict (c : NodeClass) : list string :=
  match c with
  | Node_class =>
      [ "__init__"; "nodeid"; "is_junction"; "is_outfall"; "is_storage";
        "is_divider"; "invert_elevation"; "full_depth"; "surcharge_depth";
        "ponding_area"; "surface_area"; "initial_depth"; "total_inflow";
        "total_outflow"; "losses"; "volume"; "flooding"; "depth"; "head";
        "lateral_inflow"; "generated_inflow"; "statistics"; "is_coupled";
        "coupling_inflow"; "coupling_area"; "overland_depth";
        "create_opening"; "number_of_openings"; "openings_indices" ]
  | Outfall_class =>
      [ "__init__"; "outfall_statistics"; "cumulative_inflow";
        "outfall_stage" ]
  | Storage_class =>
      [ "__init__"; "storage_statistics" ]
  end.

(** The base classes named in the class statement. *)
Definition bases (c : NodeClass) : list NodeClass :=
  match c with
  | Node_class => []
  | Outfall_class => [Node_class]
  | Storage_class => [Node_class]
  end.

(** The method resolution order: the class, then its bases. *)
Definition mro (c : NodeClass) : list NodeClass := c :: bases c.

(** Whether the name resolves on a view: the instance attributes set by
    [Node.__init__], then the class bodies along the resolution order.
    Accessing a name that does not resolve raises [AttributeError]. *)
Definition exposes (self : NodeObj) (name : string) : bool :=
  py_in name ["_model"; "_nodeid"]
  || existsb (fun k => py_in name (class_dict k)) (mro (Node__class__ self)).

(** The assignment [_nd.__class__ = cls]. *)
Definition set__class__ (nd : NodeObj) (cls : NodeClass) : NodeObj :=
  {| Node__model := Node__model nd; Node__nodeid := Node__nodeid nd;
     Node__class__ := cls |}.

(** ** class Nodes *)

Module Nodes.

Definition __init__ (model : Simulation) : M ref :=
  fl <- Engine.fileLoaded (Simulation__model model) ;;
  if negb fl then raise (PYSWMMException "SWMM Model Not Open")
  else
    n <- Engine.getProjectSize (Simulation__model model) ObjectType.NODE ;;
    alloc {| Nodes__model := Simulation__model model; Nodes__cuindex := 0;
             Nodes__nNodes := n |}.

Definition __len__ (self : ref) : M nat :=
  o <- load self ;;
  Engine.getProjectSize (Nodes__model o) ObjectType.NODE.

Definition __contains__ (self : ref) (nodeid : string) : M bool :=
  o <- load self ;;
  Engine.ObjectIDexist (Nodes__model o) ObjectType.NODE nodeid.

Definition __getitem__ (self : ref) (nodeid : string) : M NodeObj :=
  c <- __contains__ self nodeid ;;
  if c then
    o <- load self ;;
    nd <- Node.__init__ (Nodes__model o) nodeid ;;
    let _nd := nd in
    b <- Node.is_outfall nd ;;
    if b then ret (set__class__ _nd Outfall_class)
    else
      b' <- Node.is_storage nd ;;
      if b' then ret (set__class__ _nd Storage_class)
      else ret _nd
  else raise (PYSWMMException "Node ID Does not Exist").

Definition __iter__ (self : ref) : M ref := ret self.

(** The property [_nodeid]: the identifier at the cursor. *)
Definition _nodeid (self : ref) : M string :=
  o <- load self ;;
  Engine.getObjectId (Nodes__model o) ObjectType.NODE (Nodes__cuindex o).

Definition __next__ (self : ref) : M NodeObj :=
  o <- load self ;;
  if Nodes__cuindex o <? Nodes__nNodes o then
    id <- _nodeid self ;;
    nodeobject <- __getitem__ self id ;;
    o' <- load self ;;
    _ <- store self {| Nodes__model := Nodes__model o';
                       Nodes__cuindex := Nodes__cuindex o' + 1;
                       Nodes__nNodes := Nodes__nNodes o' |} ;;
    ret nodeobject
  else raise StopIteration.

End Nodes.

(** ** The iteration protocol *)

(** What a [for] loop or [list(...)] does with an iterator: call [__next__]
    until it raises [StopIteration], collecting the items; any other
    exception propagates.  [fuel] bounds the number of calls; [None] means
    the bound was reached before the iterator stopped. *)
Fixpoint drain (fuel : nat) (it : ref) : M (option (list NodeObj)) :=
  match fuel with
  | O => ret None
  | S fuel' =>
      fun w =>
        match Nodes.__next__ it w with
        | (Return x, w') =>
            (rest <- drain fuel' it ;; ret (option_map (cons x) rest)) w'
        | (Raise StopIteration, w') => (Return (Some []), w')
        | (Raise e, w') => (Raise e, w')
        end
  end.

(** [list(nodes)]: ask the iterable for its iterator, then drain it. *)
Definition py_list (fuel : nat) (iterable : ref) : M (option (list NodeObj)) :=
  it <- Nodes.__iter__ iterable ;;
  drain fuel it.

(** ** The initial world *)

(** The world right after the module is imported, given the engine objects
    of the process: no [Nodes] instance exists, the class statement of
    [Opening] has just evaluated [newid = itertools.count()], and nothing
    was called or signalled. *)
Definition imported (engs : handle -> EngineState) : World :=
  {| engines := engs;
     nodes_store := fun _ => {| Nodes__model := 0; Nodes__cuindex := 0;
                                Nodes__nNodes := 0 |};
     next_ref := 0;
     Opening_newid := 0;
     warnings := [];
     calls := [] |}.

(** ** A concrete model, for examples *)

(** A letter in upper case. *)
Definition upper_ascii (c : Ascii.ascii) : Ascii.ascii :=
  let n := Ascii.nat_of_ascii c in
  if (97 <=? n) && (n <=? 122) then Ascii.ascii_of_nat (n - 32) else c.

Fixpoint upper (s : string) : string :=
  match s with
  | EmptyString => EmptyString
  | String c s' => String (upper_ascii c) (upper s')
  end.

(** A look-up that ignores the letter case: it finds [id] when some
    identifier of the table is [id] up to the case of its letters. *)
Definition any_case (ids : list string) (id : string) : bool :=
  existsb (fun x => String.eqb (upper x) (upper id)) ids.

(** A model with four nodes.  The existence query of this engine ignores
    the letter case, and asked for an identifier beyond its table it
    returns the empty string with a warning. *)
Definition weir_setting : EngineState :=
  {| loaded := true;
     identifiers := fun t =>
       match t with
       | ObjectType.NODE => ["J0"; "J1"; "J2"; "J3"]
       | _ => []
       end;
     found_also := fun t id =>
       match t with
       | ObjectType.NODE => any_case ["J0"; "J1"; "J2"; "J3"] id
       | _ => false
       end;
     beyond := fun _ _ => Some "";
     kind := fun id => if String.eqb id "J3" then NodeType.outfall
                       else if String.eqb id "J2" then NodeType.storage
                       else NodeType.junction;
     params := fun _ _ => 0%float;
     results := fun _ _ => 1%float;
     running := false;
     registered := [] |}.

(** An engine object with no model loaded. *)
Definition closed_engine : EngineState :=
  {| loaded := false; identifiers := fun _ => [];
     found_also := fun _ _ => false; beyond := fun _ _ => Some "";
     kind := fun _ => NodeType.junction;
     params := fun _ _ => 0%float; results := fun _ _ => 0%float;
     running := false; registered := [] |}.

(** The same model with its node table reversed. *)
Definition weir_setting_reversed : EngineState :=
  {| loaded := true;
     identifiers := fun t => rev (identifiers weir_setting t);
     found_also := found_also weir_setting; beyond := beyond weir_setting;
     kind := kind weir_setting; params := params weir_setting;
     results := results weir_setting; running := false;
     registered := [] |}.

(** A model with six nodes. *)
Definition six_nodes : EngineState :=
  {| loaded := true;
     identifiers := fun t =>
       match t with
       | ObjectType.NODE => ["J0"; "J1"; "J2"; "J3"; "J4"; "J5"]
       | _ => []
       end;
     found_also := fun _ _ => false; beyond := fun _ _ => Some "";
     kind := kind weir_setting; params := params weir_setting;
     results := results weir_setting; running := false;
     registered := [] |}.

(** A process that has imported the module and opened the model above under
    handle 0; every other handle is an engine with no model. *)
Definition start : World :=
  imported (fun h => if Nat.eqb h 0 then weir_setting else closed_engine).

Definition sim : Simulation := {| Simulation__model := 0 |}.

(** ** The property tables of [Node] *)

(** The parameter properties: name, parameter code, getter, setter. *)
Definition parameter_properties
  : list (string * NodeParams.t
          * (NodeObj -> M float) * (NodeObj -> float -> M unit)) :=
  [ ("invert_elevation", NodeParams.invertElev,
     Node.invert_elevation, Node.invert_elevation_setter);
    ("full_depth", NodeParams.fullDepth,
     Node.full_depth, Node.full_depth_setter);
    ("surcharge_depth", NodeParams.surDepth,
     Node.surcharge_depth, Node.surcharge_depth_setter);
    ("ponding_area", NodeParams.pondedArea,
     Node.ponding_area, Node.ponding_area_setter);
    ("surface_area", NodeParams.surfaceArea,
     Node.surface_area, Node.surface_area_setter);
    ("initial_depth", NodeParams.initDepth,
     Node.initial_depth, Node.initial_depth_setter);
    ("coupling_area", NodeParams.couplingArea,
     Node.coupling_area, Node.coupling_area_setter);
    ("overland_depth", NodeParams.overlandDepth,
     Node.overland_depth, Node.overland_depth_setter) ].

(** The result properties: name, result code, getter. *)
Definition result_properties
  : list (string * NodeResults.t * (NodeObj -> M float)) :=
  [ ("total_inflow", NodeResults.totalinflow, Node.total_inflow);
    ("total_outflow", NodeResults.outflow, Node.total_outflow);
    ("losses", NodeResults.losses, Node.losses);
    ("volume", NodeResults.newVolume, Node.volume);
    ("flooding", NodeResults.overflow, Node.flooding);
    ("depth", NodeResults.newDepth, Node.depth);
    ("head", NodeResults.newHead, Node.head);
    ("lateral_inflow", NodeResults.newLatFlow, Node.lateral_inflow);
    ("coupling_inflow", NodeResults.overlandInflow, Node.coupling_inflow) ].

(** ** A client of one [Nodes] instance *)

(** The engines of the process replaced by [engs]: whatever else runs in the
    process between two uses of an instance may leave the engines in any
    state. *)
Definition with_engines (engs : handle -> EngineState) (w : World) : World :=
  {| engines := engs; nodes_store := nodes_store w;
     next_ref := next_ref w; Opening_newid := Opening_newid w;
     warnings := warnings w; calls := calls w |}.

(** The methods a client can call on an instance. *)
Inductive Use :=
| Len
| Contains (nodeid : string)
| Getitem (nodeid : string)
| Iter
| Next.

(** One use: the item obtained, when the use is a [Next] that returns one,
    and the world afterwards.  An exception ends the use, not the client. *)
Definition use (u : Use) (self : ref) (w : World) : option NodeObj * World :=
  match u with
  | Len => (None, snd (run (Nodes.__len__ self) w))
  | Contains nodeid => (None, snd (run (Nodes.__contains__ self nodeid) w))
  | Getitem nodeid => (None, snd (run (Nodes.__getitem__ self nodeid) w))
  | Iter => (None, snd (run (Nodes.__iter__ self) w))
  | Next =>
      match run (Nodes.__next__ self) w with
      | (Return nd, w') => (Some nd, w')
      | (Raise _, w') => (None, w')
      end
  end.

(** A sequence of uses, each in the engines the process has reached by
    then; the items obtained from the iterator, in order. *)
Fixpoint uses (l : list ((handle -> EngineState) * Use)) (self : ref)
    (w : World) : list NodeObj * World :=
  match l with
  | [] => ([], w)
  | (engs, u) :: rest =>
      let (item, w1) := use u self (with_engines engs w) in
      let (items, w2) := uses rest self w1 in
      (match item with Some nd => nd :: items | None => items end, w2)
  end.

(** ** A process that creates openings *)

(** The arguments of one call [node.create_opening(...)]. *)
Record OpeningRequest := {
  req_node : NodeObj;
  req_type : nat;
  req_area : float;
  req_length : float;
  req_coeff_orifice : float;
  req_coeff_freeweir : float;
  req_coeff_subweir : float
}.

Definition create (r : OpeningRequest) : M OpeningObj :=
  Node_create_opening (req_node r) (req_type r) (req_area r) (req_length r)
    (req_coeff_orifice r) (req_coeff_freeweir r) (req_coeff_subweir r).

(** What a process does, one step after another: it creates an opening, or
    it runs some other computation. *)
Inductive Step :=
| Create (r : OpeningRequest)
| Other {A : Type} (m : M A).

(** The openings a process obtains, in creation order, and the world it
    ends in.  An exception ends the step that raised it, not the process. *)
Fixpoint process (steps : list Step) (w : World) : list OpeningObj * World :=
  match steps with
  | [] => ([], w)
  | Create r :: rest =>
      match run (create r) w with
      | (Return o, w') =>
          let (os, w'') := process rest w' in (o :: os, w'')
      | (Raise _, w') => process rest w'
      end
  | Other m :: rest => process rest (snd (run m w))
  end.

(** The number of creations among the steps. *)
Fixpoint creations (steps : list Step) : nat :=
  match steps with
  | [] => 0
  | Create _ :: rest => S (creations rest)
  | Other _ :: rest => creations rest
  end.

(** A computation that leaves the counter [Opening.newid] as it found it. *)
Definition keeps_newid {A} (m : M A) : Prop :=
  forall w, Opening_newid (snd (run m w)) = Opening_newid w.

(** The steps of a process touch the counter only through [Create]. *)
Definition counter_private (steps : list Step) : Prop :=
  Forall (fun s => match s with
                   | Create _ => True
                   | Other m => keeps_newid m
                   end) steps.

(** ** Reading openings back *)

(** Modelled from the spec: [toolkitapi.OpeningParams], one code per
    parameter that [Opening] reads. *)
Module OpeningParams.
Inductive t :=
  area | length | orifice_coeff | free_weir_coeff | submerged_weir_coeff.
End OpeningParams.

(** The queries of the engine about its sub-resources.  They read the
    registry that [Engine.setNodeOpening] fills; they are not entered in
    the call log, which records the calls of construction, lookup,
    iteration and the node accessors. *)
Module EngineOpenings.

(** Modelled from the spec: a sub-resource is addressed by the key (node
    identifier, sequence number). *)
Definition has_key (id : string) (seq : nat) (r : OpeningRec) : bool :=
  String.eqb (op_node r) id && Nat.eqb (op_seq r) seq.

(** Modelled from the spec: sub-resource parameter get by (id, seq): the
    type of the sub-resource registered under the key.  The interface does
    not say what happens for a key that was never registered; the model
    raises there. *)
Definition getNodeOpeningType (h : handle) (id : string) (seq : nat)
  : M nat :=
  e <- engine h ;;
  match find (has_key id seq) (registered e) with
  | Some r => ret (op_type r)
  | None => raise (PYSWMMException "Opening does not exist")
  end.

(** Modelled from the spec: sub-resource parameter get by (id, seq, field). *)
Definition getNodeOpeningParam (h : handle) (id : string) (seq : nat)
    (p : OpeningParams.t) : M float :=
  e <- engine h ;;
  match find (has_key id seq) (registered e) with
  | Some r =>
      ret match p with
          | OpeningParams.area => op_area r
          | OpeningParams.length => op_length r
          | OpeningParams.orifice_coeff => op_coeff_orifice r
          | OpeningParams.free_weir_coeff => op_coeff_freeweir r
          | OpeningParams.submerged_weir_coeff => op_coeff_subweir r
          end
  | None => raise (PYSWMMException "Opening does not exist")
  end.

(** Modelled from the spec: [sub_resource_indices(id) -> sequence of int],
    the sequence numbers registered for the node.  The interface gives no
    order; the model lists them oldest first, and what is proved of this
    query is stated up to the order. *)
Definition getOpeningsIndices (h : handle) (id : string) : M (list nat) :=
  e <- engine h ;;
  ret (rev (map op_seq
              (filter (fun r => String.eqb (op_node r) id) (registered e)))).

(** Modelled from the spec: [sub_resource_count(id) -> int]. *)
Definition getOpeningsNum (h : handle) (id : string) : M nat :=
  e <- engine h ;;
  ret (List.length
         (filter (fun r => String.eqb (op_node r) id) (registered e))).

End EngineOpenings.

(** The read accessors of [Opening] that address the registry, and the two
    properties of [Node] about its openings; they are stated here, after
    the engine queries they call. *)
Definition Opening_type (self : OpeningObj) : M nat :=
  EngineOpenings.getNodeOpeningType (Opening__model self)
    (Opening_nodeid self) (Opening__id self).

Definition Opening_area (self : OpeningObj) : M float :=
  EngineOpenings.getNodeOpeningParam (Opening__model self)
    (Opening_nodeid self) (Opening__id self) OpeningParams.area.

Definition Opening_length (self : OpeningObj) : M float :=
  EngineOpenings.getNodeOpeningParam (Opening__model self)
    (Opening_nodeid self) (Opening__id self) OpeningParams.length.

Definition Opening_orifice_coeff (self : OpeningObj) : M float :=
  EngineOpenings.getNodeOpeningParam (Opening__model self)
    (Opening_nodeid self) (Opening__id self) OpeningParams.orifice_coeff.

Definition Opening_free_weir_coeff (self : OpeningObj) : M float :=
  EngineOpenings.getNodeOpeningParam (Opening__model self)
    (Opening_nodeid self) (Opening__id self) OpeningParams.free_weir_coeff.

Definition Opening_submerged_weir_coeff (self : OpeningObj) : M float :=
  EngineOpenings.getNodeOpeningParam (Opening__model self)
    (Opening_nodeid self) (Opening__id self)
    OpeningParams.submerged_weir_coeff.

Definition Node_number_of_openings (self : NodeObj) : M nat :=
  EngineOpenings.getOpeningsNum (Node__model self) (Node.nodeid self).

Definition Node_openings_indices (self : NodeObj) : M (list nat) :=
  EngineOpenings.getOpeningsIndices (Node__model self) (Node.nodeid self).

(** The steps of a process reach the counter of [Opening] and the registry
    of every engine only through [Create]. *)
Definition registry_private (steps : list Step) : Prop :=
  Forall (fun s => match s with
                   | Create _ => True
                   | Other m =>
                       keeps_newid m
                       /\ forall h w,
                           registered (engines (snd (run m w)) h)
                           = registered (engines w h)
                   end) steps.

(** Whether an opening was created on the view [nd]. *)
Definition created_on (nd : NodeObj) (o : OpeningObj) : bool :=
  Nat.eqb (Opening__model o) (Node__model nd)
  && String.eqb (Opening_nodeid o) (Node.nodeid nd).

(** * Properties *)

(** ** Helpers *)

(** The world after the engine calls [cs] (most recent first) were logged. *)
Definition add_calls (cs : list Call) (w : World) : World :=
  {| engines := engines w; nodes_store := nodes_store w;
     next_ref := next_ref w; Opening_newid := Opening_newid w;
     warnings := warnings w; calls := cs ++ calls w |}.

(** The world after the cursor of the instance [self] moved on by one. *)
Definition advance (self : ref) (w : World) : World :=
  {| engines := engines w;
     nodes_store := fun r =>
       if Nat.eqb r self
       then {| Nodes__model := Nodes__model (nodes_store w self);
               Nodes__cuindex := Nodes__cuindex (nodes_store w self) + 1;
               Nodes__nNodes := Nodes__nNodes (nodes_store w self) |}
       else nodes_store w r;
     next_ref := next_ref w; Opening_newid := Opening_newid w;
     warnings := warnings w; calls := calls w |}.

(** The class [Nodes.__getitem__] leaves on a view, by the engine's kind. *)
Definition class_of_kind (k : NodeType.t) : NodeClass :=
  match k with
  | NodeType.outfall => Outfall_class
  | NodeType.storage => Storage_class
  | _ => Node_class
  end.

(** The engine calls of the reclassification step, most recent first. *)
Definition reclassify_calls (h : handle) (id : string) (k : NodeType.t)
  : list Call :=
  match k with
  | NodeType.outfall => [Call_getNodeType h id]
  | _ => [Call_getNodeType h id; Call_getNodeType h id]
  end.

(** The engine calls of [Node.__init__] when it succeeds. *)
Definition construct_calls (h : handle) : list Call :=
  [Call_getObjectIDList h ObjectType.NODE; Call_fileLoaded h].

Lemma py_in_In x l : py_in x l = true <-> In x l.
Proof.
  unfold py_in. rewrite existsb_exists. split.
  - intros [y [Hy E]]. apply String.eqb_eq in E. now subst.
  - intros H. exists x. split; [assumption | apply String.eqb_refl].
Qed.

Lemma py_in_not_In x l : py_in x l = false <-> ~ In x l.
Proof.
  rewrite <- py_in_In. destruct (py_in x l); split; congruence.
Qed.

Lemma Node_init_ok w h id :
  loaded (engines w h) = true ->
  py_in id (identifiers (engines w h) ObjectType.NODE) = true ->
  run (Node.__init__ h id) w
  = (Return {| Node__model := h; Node__nodeid := id;
               Node__class__ := Node_class |},
     add_calls (construct_calls h) w).
Proof.
  intros Hl Hin. unfold run, Node.__init__, bind, Engine.fileLoaded,
    Engine.getObjectIDList, log, engine, bind, ret. cbn.
  rewrite Hl. cbn. rewrite Hin. reflexivity.
Qed.

Lemma Node_init_not_loaded w h id :
  loaded (engines w h) = false ->
  run (Node.__init__ h id) w
  = (Raise (PYSWMMException "SWMM Model Not Open"),
     add_calls [Call_fileLoaded h] w).
Proof.
  intros Hl. unfold run, Node.__init__, bind, Engine.fileLoaded,
    log, engine, bind, ret. cbn.
  rewrite Hl. reflexivity.
Qed.

Lemma Node_init_unknown w h id :
  loaded (engines w h) = true ->
  py_in id (identifiers (engines w h) ObjectType.NODE) = false ->
  run (Node.__init__ h id) w
  = (Raise (PYSWMMException "ID Not valid"),
     add_calls (construct_calls h) w).
Proof.
  intros Hl Hin. unfold run, Node.__init__, bind, Engine.fileLoaded,
    Engine.getObjectIDList, log, engine, bind, ret. cbn.
  rewrite Hl. cbn. rewrite Hin. reflexivity.
Qed.

Lemma contains_run w self id :
  run (Nodes.__contains__ self id) w
  = (Return (Engine.finds (engines w (Nodes__model (nodes_store w self)))
               ObjectType.NODE id),
     add_calls [Call_ObjectIDexist (Nodes__model (nodes_store w self))
                  ObjectType.NODE id] w).
Proof. reflexivity. Qed.

Lemma run_bind {A B} (m : M A) (k : A -> M B) w :
  run (bind m k) w
  = match run m w with
    | (Return a, w') => run (k a) w'
    | (Raise e, w') => (Raise e, w')
    end.
Proof. reflexivity. Qed.

Lemma finds_table e t id :
  py_in id (identifiers e t) = true -> Engine.finds e t id = true.
Proof. intros H. unfold Engine.finds. now rewrite H. Qed.

Lemma getitem_missing w self id :
  Engine.finds (engines w (Nodes__model (nodes_store w self)))
    ObjectType.NODE id = false ->
  run (Nodes.__getitem__ self id) w
  = (Raise (PYSWMMException "Node ID Does not Exist"),
     add_calls [Call_ObjectIDexist (Nodes__model (nodes_store w self))
                  ObjectType.NODE id] w).
Proof.
  intros Hin. unfold Nodes.__getitem__.
  rewrite run_bind, contains_run, Hin. reflexivity.
Qed.

Lemma reclassify_run w nd :
  run (b <- Node.is_outfall nd ;;
       if b then ret (set__class__ nd Outfall_class)
       else
         b' <- Node.is_storage nd ;;
         if b' then ret (set__class__ nd Storage_class)
         else ret nd) w
  = (Return (set__class__ nd
               (match kind (engines w (Node__model nd)) (Node__nodeid nd)
                with
                | NodeType.outfall => Outfall_class
                | NodeType.storage => Storage_class
                | _ => Node__class__ nd
                end)),
     add_calls (reclassify_calls (Node__model nd) (Node__nodeid nd)
                  (kind (engines w (Node__model nd)) (Node__nodeid nd)))
       w).
Proof.
  destruct nd as [h id c].
  unfold run, bind, Node.is_outfall, Node.is_storage, Engine.getNodeType,
    bind, log, engine, ret. cbn.
  destruct (kind (engines w h) id) eqn:E; cbn; rewrite ?E; reflexivity.
Qed.

Lemma getitem_found w self id :
  let h := Nodes__model (nodes_store w self) in
  loaded (engines w h) = true ->
  py_in id (identifiers (engines w h) ObjectType.NODE) = true ->
  run (Nodes.__getitem__ self id) w
  = (Return {| Node__model := h; Node__nodeid := id;
               Node__class__ := class_of_kind (kind (engines w h) id) |},
     add_calls (reclassify_calls h id (kind (engines w h) id)
                ++ construct_calls h
                ++ [Call_ObjectIDexist h ObjectType.NODE id]) w).
Proof.
  intros h Hl Hin. unfold Nodes.__getitem__.
  rewrite run_bind, contains_run. fold h.
  rewrite (finds_table _ _ _ Hin).
  rewrite run_bind.
  change (run (load self) ?w') with (Return (nodes_store w self), w').
  cbv iota beta. rewrite run_bind, Node_init_ok by assumption.
  fold h. cbv zeta. rewrite reclassify_run. cbn.
  destruct (kind (engines w h) id); reflexivity.
Qed.

Lemma getitem_not_loaded w self id :
  let h := Nodes__model (nodes_store w self) in
  loaded (engines w h) = false ->
  Engine.finds (engines w h) ObjectType.NODE id = true ->
  run (Nodes.__getitem__ self id) w
  = (Raise (PYSWMMException "SWMM Model Not Open"),
     add_calls [Call_fileLoaded h; Call_ObjectIDexist h ObjectType.NODE id] w).
Proof.
  intros h Hl Hin. unfold Nodes.__getitem__.
  rewrite run_bind, contains_run. fold h. rewrite Hin.
  rewrite run_bind.
  change (run (load self) ?w') with (Return (nodes_store w self), w').
  cbv iota beta. rewrite run_bind, Node_init_not_loaded by assumption.
  reflexivity.
Qed.

(** The existence query finds the identifier, the identifier list does not
    hold it: the guard of [Node.__init__] raises. *)
Lemma getitem_invalid w self id :
  let h := Nodes__model (nodes_store w self) in
  loaded (engines w h) = true ->
  Engine.finds (engines w h) ObjectType.NODE id = true ->
  py_in id (identifiers (engines w h) ObjectType.NODE) = false ->
  run (Nodes.__getitem__ self id) w
  = (Raise (PYSWMMException "ID Not valid"),
     add_calls (construct_calls h
                ++ [Call_ObjectIDexist h ObjectType.NODE id]) w).
Proof.
  intros h Hl Hf Hin. unfold Nodes.__getitem__.
  rewrite run_bind, contains_run. fold h. rewrite Hf.
  rewrite run_bind.
  change (run (load self) ?w') with (Return (nodes_store w self), w').
  cbv iota beta. rewrite run_bind, Node_init_unknown by assumption.
  reflexivity.
Qed.

(** ** Indexed lookup *)

(** C1, as the code has it: in a world where the engine behind the
    collection is loaded, if the membership test [nodeid in nodes] returns
    [True] and the identifier is one of those the engine lists for its
    nodes (the list [Node.__init__] compares it with), then
    [nodes[nodeid]] returns (does not raise) a view whose property
    [nodeid] is that identifier, bound to the collection's engine. *)
Theorem getitem_of_contained (w : World) (self : ref) (id : string) :
  let h := Nodes__model (nodes_store w self) in
  loaded (engines w h) = true ->
  fst (run (Nodes.__contains__ self id) w) = Return true ->
  In id (identifiers (engines w h) ObjectType.NODE) ->
  exists nd w',
    run (Nodes.__getitem__ self id) w = (Return nd, w')
    /\ Node.nodeid nd = id
    /\ Node__model nd = h.
Proof.
  intros h Hl _ Hin. apply py_in_In in Hin.
  eexists. eexists. rewrite getitem_found by assumption.
  split; [reflexivity | split; reflexivity].
Qed.

Lemma getitem_of_contained_witness :
  exists nd w',
    run (Nodes.__getitem__ 0 "J1") (snd (run (Nodes.__init__ sim) start))
    = (Return nd, w')
    /\ Node.nodeid nd = "J1"
    /\ Node__model nd = 0.
Proof.
  apply (getitem_of_contained (snd (run (Nodes.__init__ sim) start)) 0 "J1").
  - reflexivity.
  - reflexivity.
  - apply py_in_In. reflexivity.
Defined.

(** C1 as stated fails: a true membership test alone does not make the
    lookup succeed.  On a loaded engine whose existence query ignores the
    letter case, ["j1" in nodes] is [True], since the query finds [J1], but
    [nodes["j1"]] raises [PYSWMMException("ID Not valid")]: the guard of
    [Node.__init__] looks for the identifier as it is written in the list
    of [getObjectIDList], where it is not. *)
Lemma getitem_of_contained_counterexample :
  let w := snd (run (Nodes.__init__ sim) start) in
  loaded (engines w (Nodes__model (nodes_store w 0))) = true
  /\ fst (run (Nodes.__contains__ 0 "j1") w) = Return true
  /\ fst (run (Nodes.__getitem__ 0 "j1") w)
     = Raise (PYSWMMException "ID Not valid")
  /\ ~ (exists nd w',
          run (Nodes.__getitem__ 0 "j1") w = (Return nd, w')
          /\ Node.nodeid nd = "j1").
Proof.
  intros w. split; [reflexivity |]. split; [reflexivity |].
  split; [reflexivity |].
  intros (nd & w' & Hrun & _).
  assert (H : fst (run (Nodes.__getitem__ 0 "j1") w)
              = Raise (PYSWMMException "ID Not valid")) by reflexivity.
  rewrite Hrun in H. discriminate H.
Qed.

(** C2: for an identifier that does not exist in the engine's node
    namespace (the engine's existence query does not find it: it is not in
    the node table, nor another spelling the query accepts), the membership
    test returns [False] and [nodes[nodeid]] raises
    [PYSWMMException("Node ID Does not Exist")]; the only engine call made
    is the existence check, so [Node.__init__] never ran. *)
Theorem getitem_of_missing (w : World) (self : ref) (id : string) :
  let h := Nodes__model (nodes_store w self) in
  Engine.finds (engines w h) ObjectType.NODE id = false ->
  fst (run (Nodes.__contains__ self id) w) = Return false
  /\ run (Nodes.__getitem__ self id) w
     = (Raise (PYSWMMException "Node ID Does not Exist"),
        add_calls [Call_ObjectIDexist h ObjectType.NODE id] w).
Proof.
  intros h Hf. split.
  - rewrite contains_run. cbn [fst]. fold h. now rewrite Hf.
  - now apply getitem_missing.
Qed.

Lemma getitem_of_missing_witness :
  fst (run (Nodes.__contains__ 0 "J9") start) = Return false
  /\ run (Nodes.__getitem__ 0 "J9") start
     = (Raise (PYSWMMException "Node ID Does not Exist"),
        add_calls [Call_ObjectIDexist 0 ObjectType.NODE "J9"] start).
Proof.
  apply (getitem_of_missing start 0 "J9"). reflexivity.
Defined.

(** ** Construction *)

(** C8: [Nodes(model)] on a model whose engine is not loaded raises
    [PYSWMMException("SWMM Model Not Open")] and stores no instance;
    [Node(model, nodeid)] with an identifier that is not in the engine's
    node table raises a [PYSWMMException] and returns no view, and on a
    loaded engine that exception is [PYSWMMException("ID Not valid")]. *)
Theorem construction_errors (w : World) :
  (forall model,
      loaded (engines w (Simulation__model model)) = false ->
      run (Nodes.__init__ model) w
      = (Raise (PYSWMMException "SWMM Model Not Open"),
         add_calls [Call_fileLoaded (Simulation__model model)] w))
  /\ (forall h id,
         ~ In id (identifiers (engines w h) ObjectType.NODE) ->
         (exists msg w',
             run (Node.__init__ h id) w = (Raise (PYSWMMException msg), w'))
         /\ (loaded (engines w h) = true ->
             run (Node.__init__ h id) w
             = (Raise (PYSWMMException "ID Not valid"),
                add_calls (construct_calls h) w))).
Proof.
  split.
  - intros model Hl.
    unfold run, Nodes.__init__, bind, Engine.fileLoaded, log, engine, bind,
      ret. cbn. rewrite Hl. reflexivity.
  - intros h id Hin. apply py_in_not_In in Hin. split.
    + destruct (loaded (engines w h)) eqn:Hl.
      * rewrite Node_init_unknown by assumption. eauto.
      * rewrite Node_init_not_loaded by assumption. eauto.
    + intros Hl. now apply Node_init_unknown.
Qed.

Lemma construction_errors_witness :
  run (Nodes.__init__ {| Simulation__model := 1 |}) start
  = (Raise (PYSWMMException "SWMM Model Not Open"),
     add_calls [Call_fileLoaded 1] start)
  /\ run (Node.__init__ 0 "J9") start
     = (Raise (PYSWMMException "ID Not valid"),
        add_calls (construct_calls 0) start).
Proof.
  split.
  - apply (proj1 (construction_errors start) {| Simulation__model := 1 |}).
    reflexivity.
  - apply (proj2 (construction_errors start) 0 "J9").
    + apply py_in_not_In. reflexivity.
    + reflexivity.
Defined.

(** ** Reclassification *)

(** C9: a successful lookup is the construction [Node(model, nodeid)]
    followed by the reclassification.  The view returned has the engine
    handle and the identifier of the view that construction built; the
    engine calls made after construction are [getNodeType] queries on that
    identifier and nothing else (no existence check, no identifier list, no
    parameter or result read), and no engine state, stored instance,
    counter or warning changes. *)
Theorem reclassification_frame (w : World) (self : ref) (id : string) :
  let h := Nodes__model (nodes_store w self) in
  let w0 := add_calls [Call_ObjectIDexist h ObjectType.NODE id] w in
  loaded (engines w h) = true ->
  In id (identifiers (engines w h) ObjectType.NODE) ->
  exists nd0 w1 nd w2 after,
    run (Node.__init__ h id) w0 = (Return nd0, w1)
    /\ run (Nodes.__getitem__ self id) w = (Return nd, w2)
    /\ Node__model nd = Node__model nd0
    /\ Node__nodeid nd = Node__nodeid nd0
    /\ Node__model nd = h /\ Node__nodeid nd = id
    /\ w2 = add_calls after w1
    /\ Forall (eq (Call_getNodeType h id)) after.
Proof.
  intros h w0 Hl Hin. apply py_in_In in Hin.
  exists {| Node__model := h; Node__nodeid := id;
            Node__class__ := Node_class |}.
  exists (add_calls (construct_calls h) w0).
  exists {| Node__model := h; Node__nodeid := id;
            Node__class__ := class_of_kind (kind (engines w h) id) |}.
  exists (add_calls (reclassify_calls h id (kind (engines w h) id)
                     ++ construct_calls h
                     ++ [Call_ObjectIDexist h ObjectType.NODE id]) w).
  exists (reclassify_calls h id (kind (engines w h) id)).
  split; [apply Node_init_ok; assumption |].
  split; [apply getitem_found; assumption |].
  repeat (split; [reflexivity |]).
  split.
  - unfold add_calls, w0. cbn. rewrite <- app_assoc. reflexivity.
  - destruct (kind (engines w h) id); repeat constructor.
Qed.

Lemma reclassification_frame_witness :
  exists nd0 w1 nd w2 after,
    run (Node.__init__ 0 "J3")
      (add_calls [Call_ObjectIDexist 0 ObjectType.NODE "J3"] start)
    = (Return nd0, w1)
    /\ run (Nodes.__getitem__ 0 "J3") start = (Return nd, w2)
    /\ Node__model nd = Node__model nd0
    /\ Node__nodeid nd = Node__nodeid nd0
    /\ Node__model nd = 0 /\ Node__nodeid nd = "J3"
    /\ w2 = add_calls after w1
    /\ Forall (eq (Call_getNodeType 0 "J3")) after.
Proof.
  apply (reclassification_frame start 0 "J3").
  - reflexivity.
  - apply py_in_In. reflexivity.
Defined.

(** C4: on a loaded engine, looking up an identifier of kind outfall returns
    a view that exposes [outfall_stage], [cumulative_inflow] and
    [outfall_statistics] together with every name of the [Node] class body;
    looking up an identifier of any other kind returns a view that exposes
    none of the three.  In the same way a view exposes [storage_statistics]
    (and every [Node] name) exactly when the identifier's kind is storage. *)
Theorem subtype_accessors (w : World) (self : ref) (id : string) :
  let h := Nodes__model (nodes_store w self) in
  let k := kind (engines w h) id in
  loaded (engines w h) = true ->
  In id (identifiers (engines w h) ObjectType.NODE) ->
  exists nd w',
    run (Nodes.__getitem__ self id) w = (Return nd, w')
    /\ (forall a, In a (class_dict Node_class) -> exposes nd a = true)
    /\ (k = NodeType.outfall ->
        exposes nd "outfall_stage" = true
        /\ exposes nd "cumulative_inflow" = true
        /\ exposes nd "outfall_statistics" = true)
    /\ (k <> NodeType.outfall ->
        exposes nd "outfall_stage" = false
        /\ exposes nd "cumulative_inflow" = false
        /\ exposes nd "outfall_statistics" = false)
    /\ (k = NodeType.storage -> exposes nd "storage_statistics" = true)
    /\ (k <> NodeType.storage -> exposes nd "storage_statistics" = false).
Proof.
  intros h k Hl Hin. apply py_in_In in Hin.
  eexists. eexists. split; [apply getitem_found; assumption |].
  fold h. fold k. split.
  - intros a Ha. unfold exposes. apply orb_true_iff. right.
    apply existsb_exists. exists Node_class. split.
    + cbn. destruct k; cbn; tauto.
    + now apply py_in_In.
  - destruct k; repeat split; intros; try congruence; reflexivity.
Qed.

Lemma subtype_accessors_witness :
  exists nd w',
    run (Nodes.__getitem__ 0 "J3") start = (Return nd, w')
    /\ exposes nd "invert_elevation" = true
    /\ exposes nd "outfall_stage" = true
    /\ exposes nd "cumulative_inflow" = true
    /\ exposes nd "outfall_statistics" = true
    /\ exposes nd "storage_statistics" = false.
Proof.
  destruct (subtype_accessors start 0 "J3")
    as (nd & w' & Hrun & Hb & Ho & _ & _ & Hs).
  - reflexivity.
  - apply py_in_In. reflexivity.
  - exists nd, w'. split; [exact Hrun |].
    split; [apply Hb; apply py_in_In; reflexivity |].
    destruct Ho as (H1 & H2 & H3); [reflexivity |].
    repeat (split; [assumption |]).
    apply Hs. discriminate.
Defined.

(** ** Parameters and results *)

(** Every row of the parameter table pairs a getter and a setter that
    address the engine with the row's code and the view's identifier. *)
Lemma parameter_properties_codes name c fget fset :
  In (name, c, fget, fset) parameter_properties ->
  forall self,
    fget self = Engine.getNodeParam (Node__model self) (Node__nodeid self) c
    /\ forall v,
        fset self v
        = Engine.setNodeParam (Node__model self) (Node__nodeid self) c v.
Proof.
  intros H self. simpl in H.
  repeat (destruct H as [H | H];
          [injection H as <- <- <- <-; split; reflexivity |]).
  contradiction.
Qed.

Lemma result_properties_codes name c fget :
  In (name, c, fget) result_properties ->
  forall self,
    fget self = Engine.getNodeResult (Node__model self) (Node__nodeid self) c.
Proof.
  intros H self. simpl in H.
  repeat (destruct H as [H | H]; [injection H as <- <- <-; reflexivity |]).
  contradiction.
Qed.

Lemma set_then_get w h id c v :
  exists w',
    run (_ <- Engine.setNodeParam h id c v ;; Engine.getNodeParam h id c) w
    = (Return v, w')
    /\ params (engines w' h) id c = v
    /\ calls w' = Call_getNodeParam h id c :: Call_setNodeParam h id c v
                    :: calls w.
Proof.
  eexists. split.
  - unfold run, bind, Engine.setNodeParam, Engine.getNodeParam, bind,
      log, engine, set_engine, ret. cbn.
    rewrite Nat.eqb_refl. cbn. rewrite String.eqb_refl, NodeParams.eqb_refl.
    cbn. reflexivity.
  - cbn. rewrite Nat.eqb_refl. cbn.
    rewrite String.eqb_refl, NodeParams.eqb_refl. split; reflexivity.
Qed.

(** C6: for each of the eight parameter properties of a view (and these
    cover the eight parameter codes), assigning [v] to the property and then
    reading it returns [v]: the setter and the getter address the engine
    with the same identifier and the same code, and the engine hands back
    what was written. *)
Theorem parameter_round_trip :
  (forall name c fget fset,
      In (name, c, fget, fset) parameter_properties ->
      forall w self v,
      exists w',
        run (_ <- fset self v ;; fget self) w = (Return v, w')
        /\ params (engines w' (Node__model self)) (Node.nodeid self) c = v)
  /\ (forall c : NodeParams.t,
         exists name fget fset,
           In (name, c, fget, fset) parameter_properties).
Proof.
  split.
  - intros name c fget fset H w self v.
    destruct (parameter_properties_codes _ _ _ _ H self) as [Hg Hs].
    rewrite Hg, Hs.
    destruct (set_then_get w (Node__model self) (Node__nodeid self) c v)
      as (w' & Hrun & Hp & _).
    exists w'. split; assumption.
  - intros c. destruct c; do 3 eexists; simpl; tauto.
Qed.

Lemma parameter_round_trip_witness :
  exists w',
    run (_ <- Node.invert_elevation_setter
                {| Node__model := 0; Node__nodeid := "J1";
                   Node__class__ := Node_class |} 200%float ;;
         Node.invert_elevation
           {| Node__model := 0; Node__nodeid := "J1";
              Node__class__ := Node_class |}) start
    = (Return 200%float, w')
    /\ params (engines w' 0) "J1" NodeParams.invertElev = 200%float.
Proof.
  apply (proj1 parameter_round_trip "invert_elevation" NodeParams.invertElev
           Node.invert_elevation Node.invert_elevation_setter).
  simpl. tauto.
Defined.

(** C7: for each of the nine result properties of a view (and these cover
    the nine result codes), reading the property while no run is active on
    the view's engine returns 0 (it does not raise), and one warning is
    signalled; the engine state is left as it was. *)
Theorem result_without_run :
  (forall name c fget,
      In (name, c, fget) result_properties ->
      forall w self,
        running (engines w (Node__model self)) = false ->
        exists w',
          run (fget self) w = (Return 0%float, w')
          /\ warnings w'
             = PYSWMMWarning (Node__model self) (Node.nodeid self) c
                 :: warnings w
          /\ engines w' = engines w)
  /\ (forall c : NodeResults.t,
         exists name fget, In (name, c, fget) result_properties).
Proof.
  split.
  - intros name c fget H w self Hr.
    rewrite (result_properties_codes _ _ _ H self).
    eexists. split.
    + unfold run, Engine.getNodeResult, bind, log, engine, warn, ret.
      cbn. rewrite Hr. cbn. reflexivity.
    + split; reflexivity.
  - intros c. destruct c; do 2 eexists; simpl; tauto.
Qed.

Lemma result_without_run_witness :
  exists w',
    run (Node.total_inflow
           {| Node__model := 0; Node__nodeid := "J1";
              Node__class__ := Node_class |}) start
    = (Return 0%float, w')
    /\ warnings w'
       = PYSWMMWarning 0 "J1" NodeResults.totalinflow :: warnings start
    /\ engines w' = engines start.
Proof.
  apply (proj1 result_without_run "total_inflow" NodeResults.totalinflow
           Node.total_inflow).
  - simpl. tauto.
  - reflexivity.
Defined.

(** ** Opening sequence numbers *)

Lemma keeps_bind {A B} (m : M A) (k : A -> M B) :
  keeps_newid m -> (forall a, keeps_newid (k a)) -> keeps_newid (bind m k).
Proof.
  intros Hm Hk w. specialize (Hm w). unfold run, bind in *.
  destruct (m w) as [[a | e] w1]; cbn in *.
  - rewrite <- Hm. apply Hk.
  - exact Hm.
Qed.

Lemma keeps_ret {A} (a : A) : keeps_newid (ret a).
Proof. intros w. reflexivity. Qed.

Lemma keeps_raise {A} e : keeps_newid (@raise A e).
Proof. intros w. reflexivity. Qed.

Lemma keeps_log c : keeps_newid (log c).
Proof. intros w. reflexivity. Qed.

Lemma keeps_warn x : keeps_newid (warn x).
Proof. intros w. reflexivity. Qed.

Lemma keeps_engine h : keeps_newid (engine h).
Proof. intros w. reflexivity. Qed.

Lemma keeps_set_engine h e : keeps_newid (set_engine h e).
Proof. intros w. reflexivity. Qed.

Lemma keeps_load r : keeps_newid (load r).
Proof. intros w. reflexivity. Qed.

Lemma keeps_store r o : keeps_newid (store r o).
Proof. intros w. reflexivity. Qed.

Lemma keeps_alloc o : keeps_newid (alloc o).
Proof. intros w. reflexivity. Qed.

Create HintDb keeps.
#[local] Hint Resolve keeps_ret keeps_raise keeps_log keeps_warn keeps_engine
  keeps_set_engine keeps_load keeps_store keeps_alloc : keeps.

(** Splits a computation along its binds and branches. *)
Ltac keeps :=
  repeat first
    [ apply keeps_bind; [| intro]
    | match goal with
      | |- keeps_newid (if ?b then _ else _) => destruct b
      | |- keeps_newid (match ?x with _ => _ end) => destruct x
      | |- keeps_newid (let _ := _ in _) => cbv zeta
      end
    | solve [auto with keeps] ].

Lemma keeps_fileLoaded h : keeps_newid (Engine.fileLoaded h).
Proof. unfold Engine.fileLoaded. keeps. Qed.

Lemma keeps_getProjectSize h t : keeps_newid (Engine.getProjectSize h t).
Proof. unfold Engine.getProjectSize. keeps. Qed.

Lemma keeps_getObjectId h t i : keeps_newid (Engine.getObjectId h t i).
Proof. unfold Engine.getObjectId. keeps. Qed.

Lemma keeps_ObjectIDexist h t id : keeps_newid (Engine.ObjectIDexist h t id).
Proof. unfold Engine.ObjectIDexist. keeps. Qed.

Lemma keeps_getObjectIDList h t : keeps_newid (Engine.getObjectIDList h t).
Proof. unfold Engine.getObjectIDList. keeps. Qed.

Lemma keeps_getNodeType h id : keeps_newid (Engine.getNodeType h id).
Proof. unfold Engine.getNodeType. keeps. Qed.

Lemma keeps_getNodeParam h id c : keeps_newid (Engine.getNodeParam h id c).
Proof. unfold Engine.getNodeParam. keeps. Qed.

Lemma keeps_setNodeParam h id c v : keeps_newid (Engine.setNodeParam h id c v).
Proof. unfold Engine.setNodeParam. keeps. Qed.

Lemma keeps_getNodeResult h id c : keeps_newid (Engine.getNodeResult h id c).
Proof. unfold Engine.getNodeResult. keeps. Qed.

#[local] Hint Resolve keeps_fileLoaded keeps_getProjectSize keeps_getObjectId
  keeps_ObjectIDexist keeps_getObjectIDList keeps_getNodeType
  keeps_getNodeParam keeps_setNodeParam keeps_getNodeResult : keeps.

Lemma keeps_Node_init h id : keeps_newid (Node.__init__ h id).
Proof. unfold Node.__init__. keeps. Qed.

Lemma keeps_is_outfall nd : keeps_newid (Node.is_outfall nd).
Proof. unfold Node.is_outfall. keeps. Qed.

Lemma keeps_is_storage nd : keeps_newid (Node.is_storage nd).
Proof. unfold Node.is_storage. keeps. Qed.

#[local] Hint Resolve keeps_Node_init keeps_is_outfall keeps_is_storage : keeps.

Lemma keeps_Nodes_init model : keeps_newid (Nodes.__init__ model).
Proof. unfold Nodes.__init__. keeps. Qed.

Lemma keeps_len self : keeps_newid (Nodes.__len__ self).
Proof. unfold Nodes.__len__. keeps. Qed.

Lemma keeps_contains self id : keeps_newid (Nodes.__contains__ self id).
Proof. unfold Nodes.__contains__. keeps. Qed.

#[local] Hint Resolve keeps_contains : keeps.

Lemma keeps_getitem self id : keeps_newid (Nodes.__getitem__ self id).
Proof. unfold Nodes.__getitem__. keeps. Qed.

#[local] Hint Resolve keeps_getitem : keeps.

Lemma keeps_next self : keeps_newid (Nodes.__next__ self).
Proof. unfold Nodes.__next__, Nodes._nodeid. keeps. Qed.

Lemma keeps_parameter_properties name c fget fset :
  In (name, c, fget, fset) parameter_properties ->
  forall self, keeps_newid (fget self) /\ forall v, keeps_newid (fset self v).
Proof.
  intros H self.
  destruct (parameter_properties_codes _ _ _ _ H self) as [-> Hs].
  split; [auto with keeps |]. intros v. rewrite Hs. auto with keeps.
Qed.

Lemma keeps_result_properties name c fget :
  In (name, c, fget) result_properties ->
  forall self, keeps_newid (fget self).
Proof.
  intros H self. rewrite (result_properties_codes _ _ _ H self).
  auto with keeps.
Qed.

Lemma create_run w r :
  exists w',
    run (create r) w
    = (Return {| Opening_nodeid := Node.nodeid (req_node r);
                 Opening__model := Node__model (req_node r);
                 Opening__id := Opening_newid w |}, w')
    /\ Opening_newid w' = S (Opening_newid w).
Proof.
  eexists. split; reflexivity.
Qed.

Lemma process_ids steps : forall w,
  counter_private steps ->
  map Opening__id (fst (process steps w))
  = seq (Opening_newid w) (creations steps)
  /\ Opening_newid (snd (process steps w))
     = Opening_newid w + creations steps.
Proof.
  induction steps as [| [r | A m] rest IH]; intros w Hk.
  - cbn. split; [reflexivity | lia].
  - inversion Hk as [| ? ? _ Hrest]; subst.
    cbn [process creations].
    destruct (create_run w r) as (w1 & -> & Hn).
    destruct (IH w1 Hrest) as [Hids Hn'].
    destruct (process rest w1) as [os w2]. cbn in *.
    rewrite Hids, Hn', Hn. split; [reflexivity | lia].
  - inversion Hk as [| ? ? Hm Hrest]; subst.
    cbn [process creations].
    destruct (IH (snd (run m w)) Hrest) as [Hids Hn'].
    rewrite Hids, Hn', (Hm w). split; reflexivity.
Qed.

Lemma seq_increasing a n i j x y :
  nth_error (seq a n) i = Some x -> nth_error (seq a n) j = Some y ->
  i < j -> x < y.
Proof.
  intros Hi Hj Hlt.
  assert (Hi' : i < n)
    by (rewrite <- (length_seq n a); apply nth_error_Some; congruence).
  assert (Hj' : j < n)
    by (rewrite <- (length_seq n a); apply nth_error_Some; congruence).
  rewrite (nth_error_nth' _ 0) in Hi by (rewrite length_seq; lia).
  rewrite (nth_error_nth' _ 0) in Hj by (rewrite length_seq; lia).
  rewrite seq_nth in Hi, Hj by lia.
  injection Hi as <-. injection Hj as <-. lia.
Qed.

(** C5: the sequence numbers come from the single counter [Opening.newid],
    which is 0 when the module has just been imported.  Take any process
    whose steps are creations of openings, on whatever nodes, interleaved
    with computations that leave the counter alone (as the methods of
    [Nodes] and [Node] do).  Every creation succeeds; the numbers handed out
    are the consecutive values of the counter, so each is strictly greater
    than all the earlier ones and no two are equal; and counted from the
    import of the module they are 0, 1, 2, ... *)
Theorem opening_sequence_numbers (steps : list Step) (w : World) :
  counter_private steps ->
  let ids := map Opening__id (fst (process steps w)) in
  ids = seq (Opening_newid w) (creations steps)
  /\ (forall i j x y,
         nth_error ids i = Some x -> nth_error ids j = Some y ->
         i < j -> x < y)
  /\ NoDup ids
  /\ (forall engs,
         map Opening__id (fst (process steps (imported engs)))
         = seq 0 (creations steps)).
Proof.
  intros Hk ids. destruct (process_ids steps w Hk) as [Hids _].
  fold ids in Hids. rewrite Hids. split; [reflexivity |].
  split; [intros i j x y; apply seq_increasing |].
  split; [apply seq_NoDup |].
  intros engs. apply (process_ids steps (imported engs) Hk).
Qed.

Lemma opening_sequence_numbers_witness :
  let J1 := {| Node__model := 0; Node__nodeid := "J1";
               Node__class__ := Node_class |} in
  let J2 := {| Node__model := 0; Node__nodeid := "J2";
               Node__class__ := Storage_class |} in
  let req nd :=
    {| req_node := nd; req_type := 0; req_area := 1%float;
       req_length := 2%float; req_coeff_orifice := 0.5%float;
       req_coeff_freeweir := 0.5%float; req_coeff_subweir := 0.5%float |} in
  map (fun o => (Opening_nodeid o, Opening__id o))
    (fst (process [Create (req J1); Other (Nodes.__getitem__ 0 "J2");
                   Create (req J1); Create (req J2)] start))
  = [("J1", 0); ("J1", 1); ("J2", 2)]
  /\ map Opening__id
       (fst (process [Create (req J1); Other (Nodes.__getitem__ 0 "J2");
                      Create (req J1); Create (req J2)] start))
     = [0; 1; 2].
Proof.
  intros J1 J2 req. split; [reflexivity |].
  apply (opening_sequence_numbers
           [Create (req J1); Other (Nodes.__getitem__ 0 "J2");
            Create (req J1); Create (req J2)] start).
  repeat constructor. apply keeps_getitem.
Defined.

(** ** Iteration *)

Lemma nodeid_property_run w self :
  let o := nodes_store w self in
  let h := Nodes__model o in
  forall id,
    nth_error (identifiers (engines w h) ObjectType.NODE) (Nodes__cuindex o)
    = Some id ->
    run (Nodes._nodeid self) w
    = (Return id,
       add_calls [Call_getObjectId h ObjectType.NODE (Nodes__cuindex o)] w).
Proof.
  intros o h id Hn.
  unfold run, Nodes._nodeid, Engine.getObjectId, bind, load, log, engine.
  cbn. fold o. fold h. rewrite Hn. reflexivity.
Qed.

Lemma next_run w self id :
  let o := nodes_store w self in
  let h := Nodes__model o in
  let i := Nodes__cuindex o in
  let k := kind (engines w h) id in
  i < Nodes__nNodes o ->
  loaded (engines w h) = true ->
  nth_error (identifiers (engines w h) ObjectType.NODE) i = Some id ->
  run (Nodes.__next__ self) w
  = (Return {| Node__model := h; Node__nodeid := id;
               Node__class__ := class_of_kind k |},
     advance self
       (add_calls (reclassify_calls h id k ++ construct_calls h
                   ++ [Call_ObjectIDexist h ObjectType.NODE id;
                       Call_getObjectId h ObjectType.NODE i]) w)).
Proof.
  intros o h i k Hlt Hl Hn. unfold Nodes.__next__.
  rewrite run_bind.
  change (run (load self) w) with (Return o, w). cbv iota beta.
  fold i. apply Nat.ltb_lt in Hlt. rewrite Hlt.
  rewrite run_bind, (nodeid_property_run w self id Hn). fold o h i.
  rewrite run_bind, getitem_found; cbn [nodes_store add_calls engines];
    fold o h; try assumption.
  - fold k. unfold advance, add_calls. cbn.
    rewrite <- !app_assoc. reflexivity.
  - apply py_in_In. eapply nth_error_In. exact Hn.
Qed.

Lemma next_stop w self :
  Nodes__nNodes (nodes_store w self) <= Nodes__cuindex (nodes_store w self) ->
  run (Nodes.__next__ self) w = (Raise StopIteration, w).
Proof.
  intros Hle. unfold run, Nodes.__next__, bind, load.
  apply Nat.ltb_ge in Hle. rewrite Hle. reflexivity.
Qed.

Lemma skipn_nth_error {A} (l : list A) i x :
  nth_error l i = Some x -> skipn i l = x :: skipn (S i) l.
Proof.
  revert i. induction l as [| a l IH]; intros [| i] H; try discriminate.
  - injection H as ->. reflexivity.
  - cbn in H. apply IH in H. exact H.
Qed.

Lemma drain_step fuel self w nd w1 :
  run (Nodes.__next__ self) w = (Return nd, w1) ->
  run (drain (S fuel) self) w
  = match run (drain fuel self) w1 with
    | (Return rest, w') => (Return (option_map (cons nd) rest), w')
    | (Raise e, w') => (Raise e, w')
    end.
Proof.
  intros H. unfold run in *. cbn [drain]. rewrite H. reflexivity.
Qed.

Lemma drain_stop fuel self w w1 :
  run (Nodes.__next__ self) w = (Raise StopIteration, w1) ->
  run (drain (S fuel) self) w = (Return (Some []), w1).
Proof.
  intros H. unfold run in *. cbn [drain]. rewrite H. reflexivity.
Qed.

Lemma drain_pass n : forall fuel self w,
  loaded (engines w (Nodes__model (nodes_store w self))) = true ->
  Nodes__nNodes (nodes_store w self)
  = length (identifiers (engines w (Nodes__model (nodes_store w self)))
              ObjectType.NODE) ->
  Nodes__cuindex (nodes_store w self) + n
  = Nodes__nNodes (nodes_store w self) ->
  n < fuel ->
  exists views w',
    run (drain fuel self) w = (Return (Some views), w')
    /\ map Node.nodeid views
       = skipn (Nodes__cuindex (nodes_store w self))
           (identifiers (engines w (Nodes__model (nodes_store w self)))
              ObjectType.NODE)
    /\ Forall (fun nd => Node__model nd = Nodes__model (nodes_store w self))
         views
    /\ engines w' = engines w
    /\ Nodes__model (nodes_store w' self) = Nodes__model (nodes_store w self)
    /\ Nodes__nNodes (nodes_store w' self) = Nodes__nNodes (nodes_store w self)
    /\ Nodes__cuindex (nodes_store w' self)
       = Nodes__nNodes (nodes_store w self).
Proof.
  induction n as [| n IH]; intros [| fuel] self w Hl Hn Hc Hf; try lia.
  - exists [], w.
    rewrite (drain_stop fuel self w w) by (apply next_stop; lia).
    rewrite skipn_all2 by lia. repeat split; try constructor. lia.
  - set (o := nodes_store w self) in *. set (h := Nodes__model o) in *.
    set (ids := identifiers (engines w h) ObjectType.NODE) in *.
    destruct (nth_error ids (Nodes__cuindex o)) as [id |] eqn:Hid;
      [| apply nth_error_None in Hid; lia].
    pose proof (next_run w self id) as Hnext. cbv zeta in Hnext.
    fold o h ids in Hnext.
    specialize (Hnext ltac:(lia) Hl Hid).
    rewrite (drain_step fuel self w _ _ Hnext).
    match type of Hnext with _ = (_, ?w1) =>
      destruct (IH fuel self w1)
        as (views & w' & Hrun & Hids & Hm & He & H1 & H2 & H3)
    end.
    + cbn. rewrite Nat.eqb_refl. cbn. exact Hl.
    + cbn. rewrite Nat.eqb_refl. cbn. exact Hn.
    + cbn. rewrite Nat.eqb_refl. cbn. fold o. lia.
    + lia.
    + rewrite Hrun. cbn [option_map].
      eexists. exists w'. split; [reflexivity |].
      cbn in Hids, Hm, He, H1, H2, H3. rewrite Nat.eqb_refl in *.
      cbn in Hids, Hm, H1, H2, H3. fold o h ids in Hids, Hm.
      split.
      * cbn [map Node.nodeid Node__nodeid].
        rewrite (skipn_nth_error _ _ _ Hid), Hids.
        now rewrite Nat.add_1_r.
      * split; [constructor; [reflexivity | exact Hm] |].
        repeat split; assumption.
Qed.

Lemma Nodes_init_run w model :
  let h := Simulation__model model in
  loaded (engines w h) = true ->
  exists w0,
    run (Nodes.__init__ model) w = (Return (next_ref w), w0)
    /\ engines w0 = engines w
    /\ nodes_store w0 (next_ref w)
       = {| Nodes__model := h; Nodes__cuindex := 0;
            Nodes__nNodes :=
              length (identifiers (engines w h) ObjectType.NODE) |}.
Proof.
  intros h Hl. eexists. split.
  - unfold run, Nodes.__init__, bind, Engine.fileLoaded,
      Engine.getProjectSize, bind, log, engine, alloc, ret. cbn.
    fold h. rewrite Hl. cbn. reflexivity.
  - cbn. rewrite Nat.eqb_refl. split; reflexivity.
Qed.

Lemma getObjectId_value w h t i id :
  i < length (identifiers (engines w h) t) ->
  fst (run (Engine.getObjectId h t i) w) = Return id
  <-> nth_error (identifiers (engines w h) t) i = Some id.
Proof.
  intros Hi. unfold run, Engine.getObjectId, bind, log, engine. cbn.
  destruct (nth_error (identifiers (engines w h) t) i) eqn:E; cbn.
  - split; intros H; now injection H as ->.
  - apply nth_error_None in E. lia.
Qed.

(** C3: [Nodes(model)] over a loaded engine holding N nodes, iterated while
    the engine is left alone, yields exactly N views and then stops; the
    i-th view carries the identifier that [getObjectId(NODE, i)] returns,
    for i = 0 .. N-1 in that order.  The identifier is read when the step
    is taken: in whatever state the engine is at a call of [__next__] with
    the cursor at i below the bound, i an index of the engine's table, the
    first engine call of that step is [getObjectId(NODE, i)], and the view
    returned carries the identifier the engine gives at that moment. *)
Theorem iteration_in_index_order :
  (forall w model,
      let h := Simulation__model model in
      let ids := identifiers (engines w h) ObjectType.NODE in
      loaded (engines w h) = true ->
      exists self w0,
        run (Nodes.__init__ model) w = (Return self, w0)
        /\ forall fuel,
            length ids < fuel ->
            exists views w1,
              run (py_list fuel self) w0 = (Return (Some views), w1)
              /\ length views = length ids
              /\ map Node.nodeid views = ids
              /\ (forall i,
                     i < length ids ->
                     exists nd,
                       nth_error views i = Some nd
                       /\ fst (run (Engine.getObjectId h ObjectType.NODE i) w)
                          = Return (Node.nodeid nd))
              /\ run (Nodes.__next__ self) w1 = (Raise StopIteration, w1))
  /\ (forall w self id,
         let o := nodes_store w self in
         let h := Nodes__model o in
         Nodes__cuindex o < Nodes__nNodes o ->
         Nodes__cuindex o
         < length (identifiers (engines w h) ObjectType.NODE) ->
         loaded (engines w h) = true ->
         fst (run (Engine.getObjectId h ObjectType.NODE (Nodes__cuindex o)) w)
         = Return id ->
         exists nd w' cs,
           run (Nodes.__next__ self) w = (Return nd, w')
           /\ Node.nodeid nd = id
           /\ calls w'
              = cs ++ Call_getObjectId h ObjectType.NODE (Nodes__cuindex o)
                   :: calls w
           /\ Nodes__cuindex (nodes_store w' self) = Nodes__cuindex o + 1).
Proof.
  split.
  - intros w model h ids Hl.
    destruct (Nodes_init_run w model Hl) as (w0 & Hinit & He & Hs).
    fold h in Hs. fold ids in Hs.
    exists (next_ref w), w0. split; [exact Hinit |].
    intros fuel Hf.
    destruct (drain_pass (length ids) fuel (next_ref w) w0)
      as (views & w1 & Hrun & Hids & _ & _ & _ & H2 & H3).
    { rewrite Hs, He. exact Hl. }
    { rewrite Hs, He. reflexivity. }
    { rewrite Hs. reflexivity. }
    { exact Hf. }
    rewrite Hs, He in Hids. cbn in Hids. fold h ids in Hids.
    rewrite Hs in H2, H3. cbn in H2, H3.
    exists views, w1.
    split; [unfold py_list, Nodes.__iter__; rewrite run_bind; exact Hrun |].
    assert (Hlen : length views = length ids)
      by (rewrite <- (length_map Node.nodeid views); now rewrite Hids).
    split; [exact Hlen |]. split; [exact Hids |]. split.
    + intros i Hi.
      destruct (nth_error views i) as [nd |] eqn:Hnd;
        [| apply nth_error_None in Hnd; lia].
      exists nd. split; [reflexivity |].
      apply getObjectId_value; [exact Hi |]. fold h ids. rewrite <- Hids.
      now apply map_nth_error.
    + apply next_stop. lia.
  - intros w self id o h Hlt Hin Hl Hid.
    apply getObjectId_value in Hid; [| exact Hin].
    pose proof (next_run w self id Hlt Hl Hid) as Hnext.
    fold o h in Hnext. rewrite Hnext.
    eexists. eexists.
    exists (reclassify_calls h id (kind (engines w h) id) ++ construct_calls h
            ++ [Call_ObjectIDexist h ObjectType.NODE id]).
    split; [reflexivity |]. split; [reflexivity |]. split.
    + cbn. rewrite <- !app_assoc. reflexivity.
    + cbn. rewrite Nat.eqb_refl. reflexivity.
Qed.

Lemma iteration_in_index_order_witness :
  (exists self w0 views w1,
      run (Nodes.__init__ sim) start = (Return self, w0)
      /\ run (py_list 5 self) w0 = (Return (Some views), w1)
      /\ map Node.nodeid views = ["J0"; "J1"; "J2"; "J3"])
  /\ (exists nd w',
         run (Nodes.__next__ 0)
           (with_engines (fun _ => weir_setting_reversed)
              (snd (run (Nodes.__init__ sim) start)))
         = (Return nd, w')
         /\ Node.nodeid nd = "J3").
Proof.
  split.
  - destruct (proj1 iteration_in_index_order start sim)
      as (self & w0 & Hinit & Hpass); [reflexivity |].
    destruct (Hpass 5) as (views & w1 & Hrun & _ & Hids & _); [cbn; lia |].
    exists self, w0, views, w1. repeat split; assumption.
  - destruct (proj2 iteration_in_index_order
                (with_engines (fun _ => weir_setting_reversed)
                   (snd (run (Nodes.__init__ sim) start))) 0 "J3")
      as (nd & w' & cs & Hrun & Hid & _).
    + vm_compute. lia.
    + vm_compute. lia.
    + reflexivity.
    + reflexivity.
    + exists nd, w'. split; assumption.
Defined.

(** ** One-shot iteration *)

Lemma add_calls_store cs w : nodes_store (add_calls cs w) = nodes_store w.
Proof. reflexivity. Qed.

(** A lookup returns a view or raises a [PYSWMMException]; it logs its
    engine calls and changes nothing else. *)
Lemma getitem_cases w self id :
  exists cs,
    (exists nd, run (Nodes.__getitem__ self id) w = (Return nd, add_calls cs w))
    \/ (exists msg,
           run (Nodes.__getitem__ self id) w
           = (Raise (PYSWMMException msg), add_calls cs w)).
Proof.
  set (h := Nodes__model (nodes_store w self)).
  destruct (Engine.finds (engines w h) ObjectType.NODE id) eqn:Hf.
  - destruct (loaded (engines w h)) eqn:Hl.
    + destruct (py_in id (identifiers (engines w h) ObjectType.NODE))
        eqn:Hin.
      * rewrite getitem_found by assumption. eexists. left. eexists.
        reflexivity.
      * rewrite getitem_invalid by assumption. eexists. right. eexists.
        reflexivity.
    + rewrite getitem_not_loaded by assumption. eexists. right. eexists.
      reflexivity.
  - rewrite getitem_missing by assumption. eexists. right. eexists.
    reflexivity.
Qed.

Lemma getitem_world w self id :
  exists cs, snd (run (Nodes.__getitem__ self id) w) = add_calls cs w.
Proof.
  destruct (getitem_cases w self id) as [cs [[nd H] | [msg H]]];
    exists cs; now rewrite H.
Qed.

(** The property [_nodeid] returns a string or raises a [PYSWMMException];
    it changes no instance and no engine. *)
Lemma nodeid_property_cases w self :
  exists w1,
    nodes_store w1 = nodes_store w /\ engines w1 = engines w
    /\ ((exists id, run (Nodes._nodeid self) w = (Return id, w1))
        \/ (exists msg,
               run (Nodes._nodeid self) w
               = (Raise (PYSWMMException msg), w1))).
Proof.
  unfold Nodes._nodeid, Engine.getObjectId, run, bind, load, log, engine,
    warn, ret, raise. cbn.
  destruct (nth_error _ _) as [id |].
  - eexists. split; [| split; [| left; eexists; reflexivity]]; reflexivity.
  - destruct (beyond _ _ _) as [s |].
    + eexists. split; [| split; [| left; eexists; reflexivity]];
        reflexivity.
    + eexists. split; [| split; [| right; eexists; reflexivity]];
        reflexivity.
Qed.

(** A step of the iterator either returns an item and moves the cursor of
    the instance by one, which it only does below the bound, or raises and
    leaves every instance as it was. *)
Lemma next_effect w self :
  match run (Nodes.__next__ self) w with
  | (Return _, w') =>
      Nodes__cuindex (nodes_store w self) < Nodes__nNodes (nodes_store w self)
      /\ Nodes__nNodes (nodes_store w' self)
         = Nodes__nNodes (nodes_store w self)
      /\ Nodes__cuindex (nodes_store w' self)
         = Nodes__cuindex (nodes_store w self) + 1
  | (Raise _, w') => nodes_store w' = nodes_store w
  end.
Proof.
  unfold Nodes.__next__. rewrite run_bind.
  change (run (load self) w) with (Return (nodes_store w self), w).
  cbv iota beta.
  destruct (Nat.ltb_spec (Nodes__cuindex (nodes_store w self))
              (Nodes__nNodes (nodes_store w self))) as [Hlt | Hge];
    [| reflexivity].
  rewrite run_bind.
  destruct (nodeid_property_cases w self)
    as (w1 & Hs1 & _ & [[id ->] | [msg ->]]); [| exact Hs1].
  rewrite run_bind.
  destruct (getitem_cases w1 self id) as [cs [[nd ->] | [msg ->]]].
  - cbn. rewrite Nat.eqb_refl. cbn. rewrite Hs1. repeat split. exact Hlt.
  - cbn. exact Hs1.
Qed.

Lemma use_effect u self w :
  let o := nodes_store w self in
  let o' := nodes_store (snd (use u self w)) self in
  Nodes__nNodes o' = Nodes__nNodes o
  /\ match fst (use u self w) with
     | Some _ => Nodes__cuindex o < Nodes__nNodes o
                 /\ Nodes__cuindex o' = Nodes__cuindex o + 1
     | None => Nodes__cuindex o' = Nodes__cuindex o
     end.
Proof.
  destruct u; cbn [use fst snd]; try (split; reflexivity).
  - destruct (getitem_world w self nodeid) as [cs ->]. split; reflexivity.
  - pose proof (next_effect w self) as H.
    destruct (run (Nodes.__next__ self) w) as [[nd | e] w']; cbn [fst snd].
    + tauto.
    + rewrite H. split; reflexivity.
Qed.

Lemma uses_effect l : forall self w,
  let o := nodes_store w self in
  let o' := nodes_store (snd (uses l self w)) self in
  Nodes__nNodes o' = Nodes__nNodes o
  /\ Nodes__cuindex o' = Nodes__cuindex o + length (fst (uses l self w))
  /\ (Nodes__cuindex o <= Nodes__nNodes o ->
      Nodes__cuindex o' <= Nodes__nNodes o).
Proof.
  induction l as [| [engs u] rest IH]; intros self w; cbn [uses].
  - cbn. repeat split; lia.
  - pose proof (use_effect u self (with_engines engs w)) as Hu.
    cbv zeta in Hu. cbn [with_engines nodes_store] in Hu.
    destruct (use u self (with_engines engs w)) as [item w1].
    cbn [fst snd] in Hu.
    specialize (IH self w1). cbv zeta in IH.
    destruct (uses rest self w1) as [items w2]. cbn [fst snd] in *.
    destruct Hu as [Hn Hc]. destruct IH as (IHn & IHc & IHb).
    destruct item as [nd |]; cbn [length]; repeat split; lia.
Qed.

Lemma uses_exhausted l : forall self w,
  Nodes__nNodes (nodes_store w self) <= Nodes__cuindex (nodes_store w self) ->
  fst (uses l self w) = [].
Proof.
  induction l as [| [engs u] rest IH]; intros self w Hge; [reflexivity |].
  cbn [uses].
  pose proof (use_effect u self (with_engines engs w)) as Hu.
  cbv zeta in Hu. cbn [with_engines nodes_store] in Hu.
  destruct (use u self (with_engines engs w)) as [item w1].
  cbn [fst snd] in Hu. destruct Hu as [Hn Hc].
  (* an item would mean the step found the cursor below the bound *)
  destruct item as [nd |]; [lia |].
  specialize (IH self w1 ltac:(lia)).
  destruct (uses rest self w1) as [items w2]. exact IH.
Qed.

(** C10: a [Nodes] instance is its own iterator: [__iter__] returns the
    instance itself and changes nothing.  Construction stores the engine's
    node count of that moment as the bound and puts the cursor at 0, while
    [len()] reports the engine's count at the time it is asked.  Through any
    sequence of calls of [len], [in], indexing, [iter] and [next] on the
    instance, whatever happens to the engines in between, the bound stays
    what it was and the cursor only moves forward, by one per item yielded;
    so the instance yields at most (bound - cursor) further items, hence at
    most the construction-time count in its whole life.  Once the cursor
    has reached the bound, no use of the instance yields an item again, and
    draining it returns the empty list at once, leaving the world as it is. *)
Theorem one_shot_iterator :
  (forall w self, run (Nodes.__iter__ self) w = (Return self, w))
  /\ (forall w model,
         let h := Simulation__model model in
         loaded (engines w h) = true ->
         exists self w0,
           run (Nodes.__init__ model) w = (Return self, w0)
           /\ nodes_store w0 self
              = {| Nodes__model := h; Nodes__cuindex := 0;
                   Nodes__nNodes :=
                     length (identifiers (engines w h) ObjectType.NODE) |})
  /\ (forall w self,
         fst (run (Nodes.__len__ self) w)
         = Return (length (identifiers
                             (engines w (Nodes__model (nodes_store w self)))
                             ObjectType.NODE)))
  /\ (forall l self w,
         let o := nodes_store w self in
         let o' := nodes_store (snd (uses l self w)) self in
         Nodes__nNodes o' = Nodes__nNodes o
         /\ Nodes__cuindex o' = Nodes__cuindex o + length (fst (uses l self w))
         /\ (Nodes__cuindex o <= Nodes__nNodes o ->
             length (fst (uses l self w))
             <= Nodes__nNodes o - Nodes__cuindex o))
  /\ (forall w self,
         Nodes__nNodes (nodes_store w self)
         <= Nodes__cuindex (nodes_store w self) ->
         (forall l, fst (uses l self w) = [])
         /\ (forall fuel,
                run (py_list (S fuel) self) w = (Return (Some []), w))).
Proof.
  split; [reflexivity |].
  split.
  { intros w model h Hl.
    destruct (Nodes_init_run w model Hl) as (w0 & Hinit & _ & Hs).
    exists (next_ref w), w0. split; assumption. }
  split; [reflexivity |].
  split.
  { intros l self w o o'.
    destruct (uses_effect l self w) as (Hn & Hc & Hb).
    fold o o' in Hn, Hc, Hb. repeat split; try assumption.
    intros Hle. specialize (Hb Hle). lia. }
  intros w self Hge. split.
  - intros l. now apply uses_exhausted.
  - intros fuel. unfold py_list, Nodes.__iter__. rewrite run_bind.
    change (run (ret self) w) with (Return self, w). cbv iota beta.
    apply drain_stop. now apply next_stop.
Qed.

Lemma one_shot_iterator_witness :
  let w0 := snd (run (Nodes.__init__ sim) start) in
  let w1 := snd (run (py_list 5 0) w0) in
  let grown := with_engines (fun _ => six_nodes) w1 in
  fst (run (py_list 5 0) w0)
  = Return (Some [ {| Node__model := 0; Node__nodeid := "J0";
                      Node__class__ := Node_class |};
                   {| Node__model := 0; Node__nodeid := "J1";
                      Node__class__ := Node_class |};
                   {| Node__model := 0; Node__nodeid := "J2";
                      Node__class__ := Storage_class |};
                   {| Node__model := 0; Node__nodeid := "J3";
                      Node__class__ := Outfall_class |} ])
  /\ fst (run (Nodes.__len__ 0) grown) = Return 6
  /\ run (py_list 5 0) grown = (Return (Some []), grown)
  /\ fst (uses [(fun _ => six_nodes, Iter); (fun _ => six_nodes, Next);
                (fun _ => weir_setting, Next)] 0 w1) = [].
Proof.
  intros w0 w1 grown.
  split; [reflexivity |].
  split; [exact (proj1 (proj2 (proj2 one_shot_iterator)) grown 0) |].
  destruct (proj2 (proj2 (proj2 (proj2 one_shot_iterator))) grown 0)
    as [_ Hdrain]; [vm_compute; lia |].
  split; [exact (Hdrain 4) |].
  destruct (proj2 (proj2 (proj2 (proj2 one_shot_iterator))) w1 0)
    as [Huses _]; [vm_compute; lia |].
  apply Huses.
Defined.

(** * Further properties of the facade *)

(** ** Frames *)

(** A computation that leaves the component [f] of the world as it found
    it, whether it returns or raises. *)
Definition preserves {X A} (f : World -> X) (m : M A) : Prop :=
  forall w, f (snd (run m w)) = f w.

(** The view a lookup builds for [id] on the engine [e] under handle [h]. *)
Definition view_of (e : EngineState) (h : handle) (id : string) : NodeObj :=
  {| Node__model := h; Node__nodeid := id;
     Node__class__ := class_of_kind (kind e id) |}.

Lemma preserves_bind {X A B} (f : World -> X) (m : M A) (k : A -> M B) :
  preserves f m -> (forall a, preserves f (k a)) -> preserves f (bind m k).
Proof.
  intros Hm Hk w. specialize (Hm w). unfold run, bind in *.
  destruct (m w) as [[a | e] w1]; cbn in *.
  - rewrite <- Hm. apply Hk.
  - exact Hm.
Qed.

(** Splits a computation along its binds and branches; the primitives are
    settled by computation. *)
Ltac frame :=
  repeat first
    [ apply preserves_bind; [| intro]
    | match goal with
      | |- preserves _ (if ?b then _ else _) => destruct b
      | |- preserves _ (match ?x with _ => _ end) => destruct x
      end
    | solve [intros ?; reflexivity] ].

Lemma engines_getitem self id : preserves engines (Nodes.__getitem__ self id).
Proof.
  unfold Nodes.__getitem__, Nodes.__contains__, Node.__init__,
    Node.is_outfall, Node.is_storage, Engine.ObjectIDexist,
    Engine.fileLoaded, Engine.getObjectIDList, Engine.getNodeType.
  frame.
Qed.

Lemma engines_next self : preserves engines (Nodes.__next__ self).
Proof.
  unfold Nodes.__next__, Nodes._nodeid, Engine.getObjectId.
  frame; apply engines_getitem.
Qed.

(** A computation that reads: it leaves every engine in its state and does
    not touch the counter of [Opening]. *)
Definition read_only {A} (m : M A) : Prop :=
  preserves engines m /\ preserves Opening_newid m.

(** Unfolds the methods of the facade down to the primitives of the monad. *)
Ltac unfold_facade :=
  unfold Nodes.__init__, Nodes.__len__, Nodes.__contains__,
    Nodes.__getitem__, Nodes.__iter__, Nodes.__next__, Nodes._nodeid,
    Node.__init__, Node.is_junction, Node.is_outfall, Node.is_storage,
    Node.is_divider, Engine.fileLoaded, Engine.getProjectSize,
    Engine.getObjectId, Engine.ObjectIDexist, Engine.getObjectIDList,
    Engine.getNodeType, Engine.getNodeParam, Engine.getNodeResult.

(** X4: construction of a collection or a view, [len], [in], indexing,
    [iter], [next], the four kind tests, the eight parameter getters and the
    nine result getters only read: whether they return or raise, the state
    of every engine is what it was and the counter of [Opening] is
    untouched. *)
Theorem facade_reads_are_read_only :
  (forall model, read_only (Nodes.__init__ model))
  /\ (forall self, read_only (Nodes.__len__ self))
  /\ (forall self id, read_only (Nodes.__contains__ self id))
  /\ (forall self id, read_only (Nodes.__getitem__ self id))
  /\ (forall self, read_only (Nodes.__iter__ self))
  /\ (forall self, read_only (Nodes.__next__ self))
  /\ (forall h id, read_only (Node.__init__ h id))
  /\ (forall nd,
         read_only (Node.is_junction nd) /\ read_only (Node.is_outfall nd)
         /\ read_only (Node.is_storage nd) /\ read_only (Node.is_divider nd))
  /\ (forall name c fget fset,
         In (name, c, fget, fset) parameter_properties ->
         forall self, read_only (fget self))
  /\ (forall name c fget,
         In (name, c, fget) result_properties ->
         forall self, read_only (fget self)).
Proof.
  unfold read_only.
  repeat match goal with |- _ /\ _ => split end;
    try solve [intros; repeat split; unfold_facade; frame].
  - intros name c fget fset H self.
    destruct (parameter_properties_codes _ _ _ _ H self) as [-> _].
    split; unfold_facade; frame.
  - intros name c fget H self.
    rewrite (result_properties_codes _ _ _ H self).
    split; unfold_facade; frame.
Qed.

(** ** Lookup and its errors *)

(** X3: on a loaded engine the two guards of a lookup decide its outcome.
    If the membership test answers [False], [nodes[id]] raises "Node ID
    Does not Exist".  If it answers [True] and the identifier is in the
    list [getObjectIDList] returns, [nodes[id]] returns the view of that
    identifier.  If it answers [True] and the identifier is not in that
    list, [nodes[id]] raises "ID Not valid", the error of [Node.__init__]:
    both guards are live. *)
Theorem lookup_outcomes (w : World) (self : ref) (id : string) :
  let h := Nodes__model (nodes_store w self) in
  let e := engines w h in
  let member := fst (run (Nodes.__contains__ self id) w) in
  let r := fst (run (Nodes.__getitem__ self id) w) in
  loaded e = true ->
  (member = Return false
   /\ r = Raise (PYSWMMException "Node ID Does not Exist"))
  \/ (member = Return true /\ In id (identifiers e ObjectType.NODE)
      /\ r = Return (view_of e h id))
  \/ (member = Return true /\ ~ In id (identifiers e ObjectType.NODE)
      /\ r = Raise (PYSWMMException "ID Not valid")).
Proof.
  intros h e member r Hl. subst member r.
  rewrite contains_run. cbn [fst]. fold h e.
  destruct (Engine.finds e ObjectType.NODE id) eqn:Hf.
  - destruct (py_in id (identifiers e ObjectType.NODE)) eqn:Hin.
    + right. left. rewrite getitem_found by assumption.
      apply py_in_In in Hin. repeat split; assumption.
    + right. right. rewrite getitem_invalid by assumption.
      apply py_in_not_In in Hin. repeat split; assumption.
  - left. rewrite getitem_missing by assumption. split; reflexivity.
Qed.

Lemma lookup_outcomes_witness :
  let w := snd (run (Nodes.__init__ sim) start) in
  fst (run (Nodes.__getitem__ 0 "J9") w)
  = Raise (PYSWMMException "Node ID Does not Exist")
  /\ fst (run (Nodes.__getitem__ 0 "J1") w)
     = Return {| Node__model := 0; Node__nodeid := "J1";
                 Node__class__ := Node_class |}
  /\ fst (run (Nodes.__getitem__ 0 "j1") w)
     = Raise (PYSWMMException "ID Not valid").
Proof.
  intros w.
  destruct (lookup_outcomes w 0 "J9" eq_refl)
    as [[_ H9] | [[H9 _] | [H9 _]]]; try discriminate H9.
  destruct (lookup_outcomes w 0 "J1" eq_refl)
    as [[H1 _] | [(_ & _ & H1) | (_ & H1 & _)]]; try discriminate H1.
  2: { exfalso. apply H1. apply py_in_In. reflexivity. }
  destruct (lookup_outcomes w 0 "j1" eq_refl)
    as [[Hj _] | [(_ & Hj & _) | (_ & _ & Hj)]]; try discriminate Hj.
  1: { apply py_in_In in Hj. discriminate Hj. }
  repeat split; assumption.
Defined.

(** ** Passes *)

Lemma drain_views n : forall fuel self w,
  loaded (engines w (Nodes__model (nodes_store w self))) = true ->
  Nodes__nNodes (nodes_store w self)
  = length (identifiers (engines w (Nodes__model (nodes_store w self)))
              ObjectType.NODE) ->
  Nodes__cuindex (nodes_store w self) + n
  = Nodes__nNodes (nodes_store w self) ->
  n < fuel ->
  exists w',
    run (drain fuel self) w
    = (Return
         (Some (map (view_of (engines w (Nodes__model (nodes_store w self)))
                       (Nodes__model (nodes_store w self)))
                  (skipn (Nodes__cuindex (nodes_store w self))
                     (identifiers
                        (engines w (Nodes__model (nodes_store w self)))
                        ObjectType.NODE)))), w')
    /\ engines w' = engines w
    /\ (forall r, r <> self -> nodes_store w' r = nodes_store w r)
    /\ Nodes__model (nodes_store w' self) = Nodes__model (nodes_store w self)
    /\ Nodes__nNodes (nodes_store w' self) = Nodes__nNodes (nodes_store w self)
    /\ Nodes__cuindex (nodes_store w' self)
       = Nodes__nNodes (nodes_store w self).
Proof.
  induction n as [| n IH]; intros [| fuel] self w Hl Hn Hc Hf; try lia.
  - exists w.
    rewrite (drain_stop fuel self w w) by (apply next_stop; lia).
    rewrite skipn_all2 by lia. repeat split; try reflexivity. lia.
  - set (o := nodes_store w self) in *. set (h := Nodes__model o) in *.
    set (ids := identifiers (engines w h) ObjectType.NODE) in *.
    destruct (nth_error ids (Nodes__cuindex o)) as [id |] eqn:Hid;
      [| apply nth_error_None in Hid; lia].
    pose proof (next_run w self id) as Hnext. cbv zeta in Hnext.
    fold o h ids in Hnext.
    specialize (Hnext ltac:(lia) Hl Hid).
    rewrite (drain_step fuel self w _ _ Hnext).
    match type of Hnext with _ = (_, ?w1) =>
      destruct (IH fuel self w1)
        as (w' & Hrun & He & Hr & H1 & H2 & H3)
    end.
    + cbn. rewrite Nat.eqb_refl. cbn. exact Hl.
    + cbn. rewrite Nat.eqb_refl. cbn. exact Hn.
    + cbn. rewrite Nat.eqb_refl. cbn. fold o. lia.
    + lia.
    + rewrite Hrun. cbn [option_map].
      exists w'.
      cbn in He, H1, H2, H3. rewrite Nat.eqb_refl in *.
      cbn in H1, H2, H3. cbn [nodes_store advance add_calls engines].
      rewrite Nat.eqb_refl. cbn [Nodes__model Nodes__cuindex].
      fold o h ids. split.
      * rewrite (skipn_nth_error _ _ _ Hid). cbn [map].
        rewrite Nat.add_1_r. reflexivity.
      * split; [exact He |]. split; [| repeat split; assumption].
        intros r Hne. rewrite (Hr r Hne). cbn.
        apply Nat.eqb_neq in Hne. now rewrite Hne.
Qed.

Lemma Nodes_init_alloc w model :
  let h := Simulation__model model in
  loaded (engines w h) = true ->
  exists w0,
    run (Nodes.__init__ model) w = (Return (next_ref w), w0)
    /\ engines w0 = engines w
    /\ next_ref w0 = S (next_ref w)
    /\ nodes_store w0 (next_ref w)
       = {| Nodes__model := h; Nodes__cuindex := 0;
            Nodes__nNodes :=
              length (identifiers (engines w h) ObjectType.NODE) |}
    /\ (forall r, r <> next_ref w -> nodes_store w0 r = nodes_store w r).
Proof.
  intros h Hl. eexists. split.
  - unfold run, Nodes.__init__, bind, Engine.fileLoaded,
      Engine.getProjectSize, bind, log, engine, alloc, ret. cbn.
    fold h. rewrite Hl. cbn. reflexivity.
  - cbn. rewrite Nat.eqb_refl. repeat split.
    intros r Hne. apply Nat.eqb_neq in Hne. now rewrite Hne.
Qed.

Lemma py_list_drain fuel self w :
  run (py_list fuel self) w = run (drain fuel self) w.
Proof. reflexivity. Qed.

(** A pass over a collection whose cursor is at 0 and whose bound is the
    live count, on a loaded engine. *)
Lemma full_pass fuel self w :
  let h := Nodes__model (nodes_store w self) in
  let ids := identifiers (engines w h) ObjectType.NODE in
  loaded (engines w h) = true ->
  Nodes__cuindex (nodes_store w self) = 0 ->
  Nodes__nNodes (nodes_store w self) = length ids ->
  length ids < fuel ->
  exists w',
    run (py_list fuel self) w
    = (Return (Some (map (view_of (engines w h) h) ids)), w')
    /\ engines w' = engines w
    /\ (forall r, r <> self -> nodes_store w' r = nodes_store w r)
    /\ Nodes__model (nodes_store w' self) = h
    /\ Nodes__nNodes (nodes_store w' self) = length ids
    /\ Nodes__cuindex (nodes_store w' self) = length ids.
Proof.
  intros h ids Hl Hc Hn Hf.
  destruct (drain_views (length ids) fuel self w)
    as (w' & Hrun & He & Hr & H1 & H2 & H3); try assumption.
  { rewrite Hc, Hn. reflexivity. }
  rewrite Hc in Hrun. cbn [skipn] in Hrun. fold h ids in Hrun.
  exists w'. rewrite py_list_drain. rewrite Hn in H2, H3.
  repeat split; assumption.
Qed.

Lemma map_nodeid_view_of e h ids :
  map Node.nodeid (map (view_of e h) ids) = ids.
Proof.
  rewrite map_map. cbn. apply map_id.
Qed.

(** Construction on a loaded engine followed by a pass while the engine is
    left alone. *)
Lemma fresh_pass w model fuel :
  let h := Simulation__model model in
  let ids := identifiers (engines w h) ObjectType.NODE in
  loaded (engines w h) = true ->
  length ids < fuel ->
  exists w0 w1,
    run (Nodes.__init__ model) w = (Return (next_ref w), w0)
    /\ run (py_list fuel (next_ref w)) w0
       = (Return (Some (map (view_of (engines w h) h) ids)), w1)
    /\ engines w0 = engines w
    /\ engines w1 = engines w
    /\ Nodes__model (nodes_store w0 (next_ref w)) = h
    /\ Nodes__model (nodes_store w1 (next_ref w)) = h.
Proof.
  intros h ids Hl Hf.
  destruct (Nodes_init_alloc w model Hl) as (w0 & Hinit & He0 & _ & Hs & _).
  fold h ids in Hs.
  destruct (full_pass fuel (next_ref w) w0)
    as (w1 & Hrun & He1 & _ & Hm & _ & _).
  { rewrite Hs, He0. exact Hl. }
  { rewrite Hs. reflexivity. }
  { rewrite Hs, He0. reflexivity. }
  { rewrite Hs, He0. exact Hf. }
  rewrite Hs, He0 in Hrun. cbn [Nodes__model] in Hrun.
  rewrite Hs in Hm. cbn [Nodes__model] in Hm.
  exists w0, w1. rewrite Hs. cbn [Nodes__model].
  repeat split; try assumption. congruence.
Qed.

(** X1: [len] and iteration agree, and what is yielded is a member.  For
    a collection built on a loaded engine that is then left alone, a pass
    yields as many views as [len] reports, before and after the pass, and
    every identifier of a view the pass yields is [in] the collection. *)
Theorem len_membership_iteration_agree (w : World) (model : Simulation)
    (fuel : nat) :
  let h := Simulation__model model in
  let ids := identifiers (engines w h) ObjectType.NODE in
  loaded (engines w h) = true ->
  length ids < fuel ->
  exists self w0 views w1,
    run (Nodes.__init__ model) w = (Return self, w0)
    /\ run (py_list fuel self) w0 = (Return (Some views), w1)
    /\ fst (run (Nodes.__len__ self) w0) = Return (length views)
    /\ fst (run (Nodes.__len__ self) w1) = Return (length views)
    /\ (forall nd,
           In nd views ->
           fst (run (Nodes.__contains__ self (Node.nodeid nd)) w1)
           = Return true).
Proof.
  intros h ids Hl Hf.
  destruct (fresh_pass w model fuel Hl Hf)
    as (w0 & w1 & Hinit & Hrun & He0 & He1 & Hm0 & Hm1).
  fold h ids in Hrun.
  exists (next_ref w), w0, (map (view_of (engines w h) h) ids), w1.
  split; [exact Hinit |]. split; [exact Hrun |].
  rewrite length_map.
  split; [| split].
  - cbn. rewrite Hm0, He0. reflexivity.
  - cbn. rewrite Hm1, He1. reflexivity.
  - intros nd Hnd. apply in_map_iff in Hnd. destruct Hnd as (id & <- & Hid).
    rewrite contains_run. cbn [fst]. rewrite Hm1, He1.
    cbn [Node.nodeid view_of Node__nodeid].
    rewrite finds_table; [reflexivity | now apply py_in_In].
Qed.

Lemma len_membership_iteration_agree_witness :
  exists self w0 views w1,
    run (Nodes.__init__ sim) start = (Return self, w0)
    /\ run (py_list 5 self) w0 = (Return (Some views), w1)
    /\ fst (run (Nodes.__len__ self) w0) = Return (length views)
    /\ fst (run (Nodes.__len__ self) w1) = Return (length views)
    /\ (forall nd,
           In nd views ->
           fst (run (Nodes.__contains__ self (Node.nodeid nd)) w1)
           = Return true).
Proof.
  apply (len_membership_iteration_agree start sim 5).
  - reflexivity.
  - vm_compute. lia.
Defined.

(** X2: iteration and indexing give the same views.  After a pass over a
    collection built on a loaded engine that is left alone, looking up the
    identifier of any view the pass yielded returns that very view (same
    engine handle, identifier and class). *)
Theorem iteration_agrees_with_indexing (w : World) (model : Simulation)
    (fuel : nat) :
  let h := Simulation__model model in
  let ids := identifiers (engines w h) ObjectType.NODE in
  loaded (engines w h) = true ->
  length ids < fuel ->
  exists self w0 views w1,
    run (Nodes.__init__ model) w = (Return self, w0)
    /\ run (py_list fuel self) w0 = (Return (Some views), w1)
    /\ (forall nd,
           In nd views ->
           fst (run (Nodes.__getitem__ self (Node.nodeid nd)) w1)
           = Return nd).
Proof.
  intros h ids Hl Hf.
  destruct (fresh_pass w model fuel Hl Hf)
    as (w0 & w1 & Hinit & Hrun & He0 & He1 & Hm0 & Hm1).
  fold h ids in Hrun.
  exists (next_ref w), w0, (map (view_of (engines w h) h) ids), w1.
  split; [exact Hinit |]. split; [exact Hrun |].
  intros nd Hnd. apply in_map_iff in Hnd. destruct Hnd as (id & <- & Hid).
  cbn [Node.nodeid view_of Node__nodeid].
  rewrite getitem_found; rewrite ?Hm1, ?He1; try assumption.
  - reflexivity.
  - now apply py_in_In.
Qed.

Lemma iteration_agrees_with_indexing_witness :
  exists self w0 views w1,
    run (Nodes.__init__ sim) start = (Return self, w0)
    /\ run (py_list 5 self) w0 = (Return (Some views), w1)
    /\ (forall nd,
           In nd views ->
           fst (run (Nodes.__getitem__ self (Node.nodeid nd)) w1)
           = Return nd).
Proof.
  apply (iteration_agrees_with_indexing start sim 5).
  - reflexivity.
  - vm_compute. lia.
Defined.

(** ** Steps that fail *)

(** X5: a step that fails does not consume its index.  Whatever exception
    [__next__] raises, no instance is changed and no engine either: the
    cursor is incremented only after the lookup has returned.  So a step
    that failed below the bound is retried, not skipped: at a later step,
    if the engine is then loaded and holds an identifier at the index of the
    cursor, the view of that identifier is returned. *)
Theorem failed_step_keeps_cursor :
  (forall w self e w',
      run (Nodes.__next__ self) w = (Raise e, w') ->
      nodes_store w' = nodes_store w /\ engines w' = engines w)
  /\ (forall w self e w',
         let o := nodes_store w self in
         let h := Nodes__model o in
         run (Nodes.__next__ self) w = (Raise e, w') ->
         Nodes__cuindex o < Nodes__nNodes o ->
         forall engs id,
           loaded (engs h) = true ->
           nth_error (identifiers (engs h) ObjectType.NODE)
             (Nodes__cuindex o) = Some id ->
           fst (run (Nodes.__next__ self) (with_engines engs w'))
           = Return (view_of (engs h) h id)).
Proof.
  assert (Hkeep : forall w self e w',
             run (Nodes.__next__ self) w = (Raise e, w') ->
             nodes_store w' = nodes_store w /\ engines w' = engines w).
  { intros w self e w' Hrun. split.
    - pose proof (next_effect w self) as H. rewrite Hrun in H. exact H.
    - pose proof (engines_next self w) as H. rewrite Hrun in H. exact H. }
  split; [exact Hkeep |].
  intros w self e w' o h Hrun Hlt engs id Hl Hn.
  destruct (Hkeep w self e w' Hrun) as [Hs _].
  rewrite (next_run (with_engines engs w') self id);
    cbn [with_engines nodes_store engines]; rewrite ?Hs; try assumption.
  reflexivity.
Qed.

Lemma failed_step_keeps_cursor_witness :
  let w0 := snd (run (Nodes.__init__ sim) start) in
  let closed := with_engines (fun _ => closed_engine) w0 in
  exists w',
    run (Nodes.__next__ 0) closed
    = (Raise (PYSWMMException "Node ID Does not Exist"), w')
    /\ nodes_store w' = nodes_store closed
    /\ fst (run (Nodes.__next__ 0) (with_engines (fun _ => weir_setting) w'))
       = Return {| Node__model := 0; Node__nodeid := "J0";
                   Node__class__ := Node_class |}.
Proof.
  intros w0 closed.
  destruct (run (Nodes.__next__ 0) closed) as [r w'] eqn:Hrun.
  assert (Hr : r = Raise (PYSWMMException "Node ID Does not Exist"))
    by (change r with (fst (r, w')); rewrite <- Hrun; reflexivity).
  subst r. exists w'. split; [reflexivity |]. split.
  - exact (proj1 (proj1 failed_step_keeps_cursor closed 0 _ w' Hrun)).
  - apply (proj2 failed_step_keeps_cursor closed 0 _ w' Hrun).
    + vm_compute. lia.
    + reflexivity.
    + reflexivity.
Defined.

(** ** Several instances *)

(** X6: every instance has a cursor of its own.  Two collections built on
    the same loaded engine, which is then left alone, each yield the full
    sequence of views, the second one although the first was exhausted
    before; and the first, asked again, yields nothing. *)
Theorem instances_iterate_independently (w : World) (model : Simulation)
    (fuel : nat) :
  let h := Simulation__model model in
  let ids := identifiers (engines w h) ObjectType.NODE in
  loaded (engines w h) = true ->
  length ids < fuel ->
  exists a b views w',
    run (a <- Nodes.__init__ model ;;
         b <- Nodes.__init__ model ;;
         xs <- py_list fuel a ;;
         ys <- py_list fuel b ;;
         zs <- py_list fuel a ;;
         ret (a, b, xs, ys, zs)) w
    = (Return (a, b, Some views, Some views, Some []), w')
    /\ a <> b
    /\ map Node.nodeid views = ids.
Proof.
  intros h ids Hl Hf.
  destruct (Nodes_init_alloc w model Hl)
    as (w0 & Hinit0 & He0 & Hn0 & Hs0 & _).
  fold h ids in Hs0.
  destruct (Nodes_init_alloc w0 model)
    as (w1 & Hinit1 & He1 & _ & Hs1 & Hr1).
  { fold h. rewrite He0. exact Hl. }
  fold h in Hs1. rewrite He0 in Hs1. fold ids in Hs1. rewrite Hn0 in *.
  assert (Hab : next_ref w <> S (next_ref w)) by lia.
  assert (Hsa : nodes_store w1 (next_ref w)
                = {| Nodes__model := h; Nodes__cuindex := 0;
                     Nodes__nNodes := length ids |})
    by (rewrite (Hr1 _ Hab); exact Hs0).
  destruct (full_pass fuel (next_ref w) w1)
    as (w2 & Hrun2 & He2 & Hr2 & Hm2 & Hb2 & Hc2).
  { rewrite Hsa, He1, He0. exact Hl. }
  { rewrite Hsa. reflexivity. }
  { rewrite Hsa, He1, He0. reflexivity. }
  { rewrite Hsa, He1, He0. exact Hf. }
  rewrite Hsa, He1, He0 in Hrun2, Hb2, Hc2. cbn [Nodes__model] in *.
  fold h ids in Hrun2, Hb2, Hc2.
  assert (Hsb : nodes_store w2 (S (next_ref w))
                = {| Nodes__model := h; Nodes__cuindex := 0;
                     Nodes__nNodes := length ids |})
    by (rewrite (Hr2 _ (not_eq_sym Hab)); exact Hs1).
  destruct (full_pass fuel (S (next_ref w)) w2)
    as (w3 & Hrun3 & He3 & Hr3 & _).
  { rewrite Hsb, He2, He1, He0. exact Hl. }
  { rewrite Hsb. reflexivity. }
  { rewrite Hsb, He2, He1, He0. reflexivity. }
  { rewrite Hsb, He2, He1, He0. exact Hf. }
  rewrite Hsb, He2, He1, He0 in Hrun3. cbn [Nodes__model] in Hrun3.
  fold h ids in Hrun3.
  exists (next_ref w), (S (next_ref w)), (map (view_of (engines w h) h) ids).
  exists w3. split; [| split; [exact Hab | apply map_nodeid_view_of]].
  rewrite run_bind, Hinit0, run_bind, Hinit1, run_bind, Hrun2,
    run_bind, Hrun3, run_bind.
  destruct fuel as [| fuel']; [lia |].
  rewrite py_list_drain,
    (drain_stop fuel' (next_ref w) w3 w3).
  - reflexivity.
  - apply next_stop. rewrite (Hr3 _ Hab). lia.
Qed.

Lemma instances_iterate_independently_witness :
  exists a b views w',
    run (a <- Nodes.__init__ sim ;;
         b <- Nodes.__init__ sim ;;
         xs <- py_list 5 a ;;
         ys <- py_list 5 b ;;
         zs <- py_list 5 a ;;
         ret (a, b, xs, ys, zs)) start
    = (Return (a, b, Some views, Some views, Some []), w')
    /\ a <> b
    /\ map Node.nodeid views = ["J0"; "J1"; "J2"; "J3"].
Proof.
  apply (instances_iterate_independently start sim 5).
  - reflexivity.
  - vm_compute. lia.
Defined.

(** ** Kind tests *)

(** X7: of the four kind tests [is_junction], [is_outfall], [is_storage]
    and [is_divider] exactly one answers [True] on any view, in any world;
    each asks the engine once for the node type and changes nothing else. *)
Theorem kind_tests_partition (w : World) (nd : NodeObj) :
  exists bj bo bs bd,
    run (Node.is_junction nd) w
    = (Return bj,
       add_calls [Call_getNodeType (Node__model nd) (Node__nodeid nd)] w)
    /\ run (Node.is_outfall nd) w
       = (Return bo,
          add_calls [Call_getNodeType (Node__model nd) (Node__nodeid nd)] w)
    /\ run (Node.is_storage nd) w
       = (Return bs,
          add_calls [Call_getNodeType (Node__model nd) (Node__nodeid nd)] w)
    /\ run (Node.is_divider nd) w
       = (Return bd,
          add_calls [Call_getNodeType (Node__model nd) (Node__nodeid nd)] w)
    /\ length (filter (fun b : bool => b) [bj; bo; bs; bd]) = 1.
Proof.
  do 4 eexists.
  repeat (split; [reflexivity |]).
  cbn.
  destruct (kind (engines w (Node__model nd)) (Node__nodeid nd));
    reflexivity.
Qed.

(** X8: the class of a view obtained by lookup mirrors the kind tests.  On
    a loaded engine, the view [nodes[id]] returns is an [Outfall] exactly
    when its [is_outfall()] answers [True], a [Storage] exactly when its
    [is_storage()] does, and a plain [Node] exactly when [is_junction()] or
    [is_divider()] does. *)
Theorem lookup_class_mirrors_kind_tests (w : World) (self : ref)
    (id : string) :
  let h := Nodes__model (nodes_store w self) in
  loaded (engines w h) = true ->
  In id (identifiers (engines w h) ObjectType.NODE) ->
  exists nd w',
    run (Nodes.__getitem__ self id) w = (Return nd, w')
    /\ (Node__class__ nd = Outfall_class
        <-> fst (run (Node.is_outfall nd) w') = Return true)
    /\ (Node__class__ nd = Storage_class
        <-> fst (run (Node.is_storage nd) w') = Return true)
    /\ (Node__class__ nd = Node_class
        <-> fst (run (Node.is_junction nd) w') = Return true
            \/ fst (run (Node.is_divider nd) w') = Return true).
Proof.
  intros h Hl Hin. apply py_in_In in Hin.
  eexists. eexists. split; [apply getitem_found; assumption |].
  fold h.
  unfold run, Node.is_outfall, Node.is_storage, Node.is_junction,
    Node.is_divider, Engine.getNodeType, bind, log, engine, ret.
  cbn.
  destruct (kind (engines w h) id); cbn;
    repeat split; intros; try discriminate; try reflexivity; auto;
    match goal with H : _ \/ _ |- _ => destruct H; discriminate end.
Qed.

Lemma lookup_class_mirrors_kind_tests_witness :
  exists nd w',
    run (Nodes.__getitem__ 0 "J3") start = (Return nd, w')
    /\ (Node__class__ nd = Outfall_class
        <-> fst (run (Node.is_outfall nd) w') = Return true)
    /\ (Node__class__ nd = Storage_class
        <-> fst (run (Node.is_storage nd) w') = Return true)
    /\ (Node__class__ nd = Node_class
        <-> fst (run (Node.is_junction nd) w') = Return true
            \/ fst (run (Node.is_divider nd) w') = Return true).
Proof.
  apply (lookup_class_mirrors_kind_tests start 0 "J3").
  - reflexivity.
  - apply py_in_In. reflexivity.
Defined.

(** ** Openings read back *)

(** The record a creation enters in the registry. *)
Definition record_of (r : OpeningRequest) (seq : nat) : OpeningRec :=
  {| op_node := Node.nodeid (req_node r); op_seq := seq;
     op_type := req_type r; op_area := req_area r;
     op_length := req_length r;
     op_coeff_orifice := req_coeff_orifice r;
     op_coeff_freeweir := req_coeff_freeweir r;
     op_coeff_subweir := req_coeff_subweir r |}.

Lemma create_registry w r :
  exists w',
    run (create r) w
    = (Return {| Opening_nodeid := Node.nodeid (req_node r);
                 Opening__model := Node__model (req_node r);
                 Opening__id := Opening_newid w |}, w')
    /\ Opening_newid w' = S (Opening_newid w)
    /\ forall h,
        registered (engines w' h)
        = if Nat.eqb h (Node__model (req_node r))
          then record_of r (Opening_newid w) :: registered (engines w h)
          else registered (engines w h).
Proof.
  eexists. split; [reflexivity |]. split; [reflexivity |].
  intros h. cbn.
  destruct (Nat.eqb_spec h (Node__model (req_node r))) as [-> |];
    reflexivity.
Qed.

Lemma registry_private_inv s steps :
  registry_private (s :: steps) ->
  registry_private steps
  /\ match s with
     | Create _ => True
     | Other m =>
         keeps_newid m
         /\ forall h w,
             registered (engines (snd (run m w)) h) = registered (engines w h)
     end.
Proof.
  intros H. inversion H; subst. split; assumption.
Qed.

(** A record registered under a sequence number below the counter stays
    the one found under its key through any process. *)
Lemma find_through_process steps : forall w h id c rec,
  registry_private steps ->
  c < Opening_newid w ->
  find (EngineOpenings.has_key id c) (registered (engines w h)) = Some rec ->
  find (EngineOpenings.has_key id c)
    (registered (engines (snd (process steps w)) h)) = Some rec.
Proof.
  induction steps as [| s rest IH]; intros w h id c rec Hp Hc Hf;
    [exact Hf |].
  apply registry_private_inv in Hp. destruct Hp as [Hrest Hs].
  destruct s as [r | A m]; cbn [process].
  - destruct (create_registry w r) as (w1 & -> & Hn & Hreg).
    assert (H1 : find (EngineOpenings.has_key id c)
                   (registered (engines w1 h)) = Some rec).
    { rewrite Hreg. destruct (Nat.eqb h (Node__model (req_node r)));
        [| exact Hf].
      cbn [find]. unfold EngineOpenings.has_key at 1.
      cbn [record_of op_node op_seq].
      replace (Nat.eqb (Opening_newid w) c) with false
        by (symmetry; apply Nat.eqb_neq; lia).
      rewrite andb_false_r. exact Hf. }
    specialize (IH w1 h id c rec Hrest ltac:(lia) H1).
    destruct (process rest w1) as [os w2]. exact IH.
  - destruct Hs as [Hk Hr].
    apply IH; [exact Hrest | rewrite (Hk w); exact Hc |].
    rewrite Hr. exact Hf.
Qed.

(** X9: an opening reads back what it was created with.  After
    [create_opening], and after any further steps of the process that reach
    the counter and the registries only by creating openings (on this node
    or any other), the accessors [type], [area], [length], [orifice_coeff],
    [free_weir_coeff] and [submerged_weir_coeff] of the object return the
    values given at its creation: the object keeps the identifier and the
    engine of the node it was created on, the key (node identifier,
    sequence number) it keeps is the key it was registered under, and no
    later opening is registered under it.  (The registry of the engine is
    modelled from its interface: a query by key finds the record registered
    under that key.) *)
Theorem opening_reads_back (w : World) (r : OpeningRequest)
    (later : list Step) :
  registry_private later ->
  exists o w1,
    run (create r) w = (Return o, w1)
    /\ Opening_nodeid o = Node.nodeid (req_node r)
    /\ Opening__model o = Node__model (req_node r)
    /\ let w2 := snd (process later w1) in
       fst (run (Opening_type o) w2) = Return (req_type r)
       /\ fst (run (Opening_area o) w2) = Return (req_area r)
       /\ fst (run (Opening_length o) w2) = Return (req_length r)
       /\ fst (run (Opening_orifice_coeff o) w2)
          = Return (req_coeff_orifice r)
       /\ fst (run (Opening_free_weir_coeff o) w2)
          = Return (req_coeff_freeweir r)
       /\ fst (run (Opening_submerged_weir_coeff o) w2)
          = Return (req_coeff_subweir r).
Proof.
  intros Hp.
  destruct (create_registry w r) as (w1 & Hrun & Hn & Hreg).
  eexists. exists w1. split; [exact Hrun |].
  split; [reflexivity |]. split; [reflexivity |].
  intros w2.
  assert (Hf : find (EngineOpenings.has_key (Node.nodeid (req_node r))
                       (Opening_newid w))
                 (registered (engines w2 (Node__model (req_node r))))
               = Some (record_of r (Opening_newid w))).
  { apply find_through_process; [exact Hp | lia |].
    rewrite Hreg, Nat.eqb_refl. cbn [find].
    unfold EngineOpenings.has_key. cbn [record_of op_node op_seq].
    now rewrite String.eqb_refl, Nat.eqb_refl. }
  unfold Opening_type, Opening_area, Opening_length, Opening_orifice_coeff,
    Opening_free_weir_coeff, Opening_submerged_weir_coeff,
    EngineOpenings.getNodeOpeningType, EngineOpenings.getNodeOpeningParam,
    run, bind, engine.
  cbn [Opening__model Opening_nodeid Opening__id fst].
  rewrite Hf. repeat split.
Qed.

Lemma reads_keep_registry {A} (m : M A) :
  preserves engines m ->
  forall h w, registered (engines (snd (run m w)) h) = registered (engines w h).
Proof. intros H h w. now rewrite (H w). Qed.

Lemma setNodeParam_keeps_registry h' id c v :
  forall h w,
    registered (engines (snd (run (Engine.setNodeParam h' id c v) w)) h)
    = registered (engines w h).
Proof.
  intros h w. cbn. destruct (Nat.eqb_spec h h') as [-> |]; reflexivity.
Qed.

Lemma opening_reads_back_witness :
  let J1 := {| Node__model := 0; Node__nodeid := "J1";
               Node__class__ := Node_class |} in
  let J2 := {| Node__model := 0; Node__nodeid := "J2";
               Node__class__ := Storage_class |} in
  let req nd a :=
    {| req_node := nd; req_type := 1; req_area := a;
       req_length := 2%float; req_coeff_orifice := 0.5%float;
       req_coeff_freeweir := 0.5%float; req_coeff_subweir := 0.5%float |} in
  exists o w1,
    run (create (req J1 1%float)) start = (Return o, w1)
    /\ Opening_nodeid o = "J1"
    /\ Opening__model o = 0
    /\ let w2 :=
         snd (process [Create (req J1 3%float);
                       Other (Node.invert_elevation_setter J1 7%float);
                       Other (Nodes.__getitem__ 0 "J2");
                       Create (req J2 4%float)] w1) in
       fst (run (Opening_type o) w2) = Return 1
       /\ fst (run (Opening_area o) w2) = Return 1%float
       /\ fst (run (Opening_length o) w2) = Return 2%float
       /\ fst (run (Opening_orifice_coeff o) w2) = Return 0.5%float
       /\ fst (run (Opening_free_weir_coeff o) w2) = Return 0.5%float
       /\ fst (run (Opening_submerged_weir_coeff o) w2) = Return 0.5%float.
Proof.
  intros J1 J2 req.
  apply (opening_reads_back start (req J1 1%float)
           [Create (req J1 3%float);
            Other (Node.invert_elevation_setter J1 7%float);
            Other (Nodes.__getitem__ 0 "J2");
            Create (req J2 4%float)]).
  unfold registry_private.
  repeat apply Forall_cons; try apply Forall_nil; try exact I.
  - split.
    + exact (keeps_setNodeParam 0 "J1" NodeParams.invertElev 7%float).
    + exact (setNodeParam_keeps_registry 0 "J1" NodeParams.invertElev
               7%float).
  - split.
    + apply keeps_getitem.
    + apply reads_keep_registry, engines_getitem.
Defined.

(** The sequence numbers registered for a node in a world, oldest first. *)
Definition indices_of (nd : NodeObj) (w : World) : list nat :=
  rev (map op_seq
         (filter (fun r => String.eqb (op_node r) (Node.nodeid nd))
            (registered (engines w (Node__model nd))))).

Lemma openings_indices_run nd w :
  run (Node_openings_indices nd) w = (Return (indices_of nd w), w).
Proof. reflexivity. Qed.

Lemma number_of_openings_run nd w :
  run (Node_number_of_openings nd) w = (Return (length (indices_of nd w)), w).
Proof.
  unfold indices_of. rewrite length_rev, length_map. reflexivity.
Qed.

Lemma indices_through_process nd steps : forall w,
  registry_private steps ->
  indices_of nd (snd (process steps w))
  = indices_of nd w
    ++ map Opening__id (filter (created_on nd) (fst (process steps w))).
Proof.
  induction steps as [| s rest IH]; intros w Hp.
  - cbn. now rewrite app_nil_r.
  - apply registry_private_inv in Hp. destruct Hp as [Hrest Hs].
    destruct s as [r | A m]; cbn [process].
    + destruct (create_registry w r) as (w1 & -> & Hn & Hreg).
      specialize (IH w1 Hrest).
      destruct (process rest w1) as [os w2]. cbn [fst snd] in *.
      rewrite IH. unfold indices_of at 1. rewrite Hreg.
      cbn [filter].
      change (created_on nd _)
        with (Nat.eqb (Node__model (req_node r)) (Node__model nd)
              && String.eqb (Node.nodeid (req_node r)) (Node.nodeid nd)).
      rewrite (Nat.eqb_sym (Node__model nd)).
      destruct (Nat.eqb (Node__model (req_node r)) (Node__model nd));
        cbn [andb]; [| reflexivity].
      cbn [filter record_of op_node].
      destruct (String.eqb (Node.nodeid (req_node r)) (Node.nodeid nd));
        [| reflexivity].
      cbn [map rev op_seq Opening__id]. rewrite <- app_assoc. reflexivity.
    + destruct Hs as [_ Hr]. rewrite (IH _ Hrest).
      unfold indices_of. now rewrite Hr.
Qed.

(** X10: the openings a node reports are the openings created on it.
    Through any process that reaches the counter and the registries only by
    creating openings, [openings_indices] of a view returns, in some order,
    what it returned before together with the sequence numbers of the
    [Opening] objects created on that node of that engine, and
    [number_of_openings] grows by their number; openings created on other
    nodes do not appear.  (The registry of the engine is modelled from its
    interface.) *)
Theorem openings_indices_track_creations (w : World) (nd : NodeObj)
    (steps : list Step) :
  registry_private steps ->
  let os := fst (process steps w) in
  let w' := snd (process steps w) in
  let mine := map Opening__id (filter (created_on nd) os) in
  exists before after,
    fst (run (Node_openings_indices nd) w) = Return before
    /\ fst (run (Node_number_of_openings nd) w) = Return (length before)
    /\ fst (run (Node_openings_indices nd) w') = Return after
    /\ Permutation after (before ++ mine)
    /\ fst (run (Node_number_of_openings nd) w')
       = Return (length before + length mine).
Proof.
  intros Hp os w' mine.
  exists (indices_of nd w), (indices_of nd w').
  rewrite !openings_indices_run, !number_of_openings_run. cbn [fst].
  unfold w', mine, os. rewrite (indices_through_process nd steps w Hp).
  rewrite length_app. repeat split. apply Permutation_refl.
Qed.

Lemma openings_indices_track_creations_witness :
  let J1 := {| Node__model := 0; Node__nodeid := "J1";
               Node__class__ := Node_class |} in
  let J2 := {| Node__model := 0; Node__nodeid := "J2";
               Node__class__ := Storage_class |} in
  let req nd :=
    {| req_node := nd; req_type := 1; req_area := 1%float;
       req_length := 2%float; req_coeff_orifice := 0.5%float;
       req_coeff_freeweir := 0.5%float; req_coeff_subweir := 0.5%float |} in
  let steps := [Create (req J1); Create (req J2);
                Other (Nodes.__getitem__ 0 "J2"); Create (req J1)] in
  exists after1 after2,
    fst (run (Node_openings_indices J1) (snd (process steps start)))
    = Return after1
    /\ Permutation after1 [0; 2]
    /\ fst (run (Node_number_of_openings J1) (snd (process steps start)))
       = Return 2
    /\ fst (run (Node_openings_indices J2) (snd (process steps start)))
       = Return after2
    /\ Permutation after2 [1].
Proof.
  intros J1 J2 req steps.
  assert (Hp : registry_private steps).
  { unfold registry_private.
    repeat apply Forall_cons; try apply Forall_nil; try exact I.
    split.
    - apply keeps_getitem.
    - apply reads_keep_registry, engines_getitem. }
  destruct (openings_indices_track_creations start J1 steps Hp)
    as (b1 & a1 & Hb1 & _ & Ha1 & Hp1 & Hn1).
  destruct (openings_indices_track_creations start J2 steps Hp)
    as (b2 & a2 & Hb2 & _ & Ha2 & Hp2 & _).
  injection Hb1 as <-. injection Hb2 as <-.
  exists a1, a2. repeat split; assumption.
Defined.

(** ** Direct construction *)

(** X11: constructing a view directly does not reclassify it.  On a loaded
    engine, [Node(model, id)] for an identifier of the node table returns a
    plain [Node] whatever the engine's kind of that node, so it exposes
    none of [outfall_stage], [cumulative_inflow], [outfall_statistics] and
    [storage_statistics]; the view [nodes[id]] returns is that same view
    with the class that goes with the kind. *)
Theorem direct_construction_is_plain (w : World) (self : ref) (id : string) :
  let h := Nodes__model (nodes_store w self) in
  loaded (engines w h) = true ->
  In id (identifiers (engines w h) ObjectType.NODE) ->
  exists nd w',
    run (Node.__init__ h id) w = (Return nd, w')
    /\ Node__class__ nd = Node_class
    /\ exposes nd "outfall_stage" = false
    /\ exposes nd "cumulative_inflow" = false
    /\ exposes nd "outfall_statistics" = false
    /\ exposes nd "storage_statistics" = false
    /\ fst (run (Nodes.__getitem__ self id) w)
       = Return (set__class__ nd (class_of_kind (kind (engines w h) id))).
Proof.
  intros h Hl Hin. apply py_in_In in Hin.
  eexists. eexists. split; [apply Node_init_ok; assumption |].
  repeat (split; [reflexivity |]).
  rewrite getitem_found by assumption. reflexivity.
Qed.

Lemma direct_construction_is_plain_witness :
  exists nd w',
    run (Node.__init__ 0 "J3") start = (Return nd, w')
    /\ Node__class__ nd = Node_class
    /\ exposes nd "outfall_stage" = false
    /\ exposes nd "cumulative_inflow" = false
    /\ exposes nd "outfall_statistics" = false
    /\ exposes nd "storage_statistics" = false
    /\ fst (run (Nodes.__getitem__ 0 "J3") start)
       = Return (set__class__ nd Outfall_class).
Proof.
  apply (direct_construction_is_plain start 0 "J3").
  - reflexivity.
  - apply py_in_In. reflexivity.
Defined.

(** ** Views of one node *)

(** X12: views hold no data of their own.  A value assigned to a parameter
    property through one view is what the same property returns through
    any other view of the same identifier on the same engine, whatever the
    classes of the two views; this holds for each of the eight parameter
    properties. *)
Theorem write_seen_through_other_views (name : string) (c : NodeParams.t)
    (fget : NodeObj -> M float) (fset : NodeObj -> float -> M unit) :
  In (name, c, fget, fset) parameter_properties ->
  forall w nd1 nd2 v,
    Node__model nd1 = Node__model nd2 ->
    Node.nodeid nd1 = Node.nodeid nd2 ->
    exists w', run (_ <- fset nd1 v ;; fget nd2) w = (Return v, w').
Proof.
  intros H w nd1 nd2 v Hm Hid.
  destruct (parameter_properties_codes _ _ _ _ H nd1) as [_ Hs].
  destruct (parameter_properties_codes _ _ _ _ H nd2) as [Hg _].
  rewrite Hs, Hg. unfold Node.nodeid in Hid. rewrite <- Hm, <- Hid.
  destruct (set_then_get w (Node__model nd1) (Node__nodeid nd1) c v)
    as (w' & Hrun & _).
  exists w'. exact Hrun.
Qed.

Lemma write_seen_through_other_views_witness :
  exists w',
    run (_ <- Node.full_depth_setter
                {| Node__model := 0; Node__nodeid := "J3";
                   Node__class__ := Node_class |} 50%float ;;
         Node.full_depth
           {| Node__model := 0; Node__nodeid := "J3";
              Node__class__ := Outfall_class |}) start
    = (Return 50%float, w').
Proof.
  apply (write_seen_through_other_views "full_depth" NodeParams.fullDepth
           Node.full_depth Node.full_depth_setter).
  - simpl. tauto.
  - reflexivity.
  - reflexivity.
Defined.

(** ** The end of a pass *)

(** X13: a pass ends exactly at the bound.  [__next__] raises
    [StopIteration] if and only if the cursor of the instance has reached
    the bound stored at construction, and then it changes nothing and calls
    nothing; below the bound a step returns a view or raises a
    [PYSWMMException], whatever the engine answers at an index outside
    its table, so that an error never ends a [for] loop silently. *)
Theorem stop_exactly_at_bound (w : World) (self : ref) :
  let o := nodes_store w self in
  (Nodes__nNodes o <= Nodes__cuindex o ->
   run (Nodes.__next__ self) w = (Raise StopIteration, w))
  /\ (Nodes__cuindex o < Nodes__nNodes o ->
      (exists nd, fst (run (Nodes.__next__ self) w) = Return nd)
      \/ (exists msg,
             fst (run (Nodes.__next__ self) w)
             = Raise (PYSWMMException msg)))
  /\ (fst (run (Nodes.__next__ self) w) = Raise StopIteration
      <-> Nodes__nNodes o <= Nodes__cuindex o).
Proof.
  intros o.
  assert (Hstop : Nodes__nNodes o <= Nodes__cuindex o ->
                  run (Nodes.__next__ self) w = (Raise StopIteration, w))
    by apply next_stop.
  assert (Hbelow :
            Nodes__cuindex o < Nodes__nNodes o ->
            (exists nd, fst (run (Nodes.__next__ self) w) = Return nd)
            \/ (exists msg,
                   fst (run (Nodes.__next__ self) w)
                   = Raise (PYSWMMException msg))).
  { intros Hlt. unfold Nodes.__next__. rewrite run_bind.
    change (run (load self) w) with (Return o, w). cbv iota beta.
    apply Nat.ltb_lt in Hlt. rewrite Hlt. rewrite run_bind.
    destruct (nodeid_property_cases w self)
      as (w1 & _ & _ & [[id ->] | [msg ->]]);
      [| right; eexists; reflexivity].
    rewrite run_bind.
    destruct (getitem_cases w1 self id) as [cs [[nd ->] | [msg ->]]].
    - left. eexists. reflexivity.
    - right. eexists. reflexivity. }
  split; [exact Hstop |]. split; [exact Hbelow |].
  split.
  - intros Hs. destruct (Nat.le_gt_cases (Nodes__nNodes o) (Nodes__cuindex o))
      as [Hle | Hlt]; [exact Hle |].
    destruct (Hbelow Hlt) as [[nd Hr] | [msg Hr]];
      rewrite Hr in Hs; discriminate.
  - intros Hle. now rewrite (Hstop Hle).
Qed.

Lemma stop_exactly_at_bound_witness :
  let w0 := snd (run (Nodes.__init__ sim) start) in
  let w1 := snd (run (py_list 5 0) w0) in
  run (Nodes.__next__ 0) w1 = (Raise StopIteration, w1)
  /\ ((exists nd, fst (run (Nodes.__next__ 0) w0) = Return nd)
      \/ (exists msg,
             fst (run (Nodes.__next__ 0) w0) = Raise (PYSWMMException msg))).
Proof.
  intros w0 w1. split.
  - apply (proj1 (stop_exactly_at_bound w1 0)). vm_compute. lia.
  - apply (proj1 (proj2 (stop_exactly_at_bound w0 0))). vm_compute. lia.
Defined.
